(** * cros_config_schema: the YAML-to-JSON transform of cros_config_host/v2

    A shallow embedding of [cros_config_schema.py] (Python 2).  The module
    works on the trees produced by [yaml.load] / [json.loads]; those trees,
    the exceptions the interpreter raises and the handful of built-ins the
    module calls ([collections.namedtuple], [os.path.join], [str.replace],
    the [%] operator, [str.format], [json.dumps]) are modelled first, the
    functions of the module follow in source order, and the properties come
    last.

    Conventions of the embedding.
    - A mapping is an association list whose order is the order in which the
      interpreter enumerates the mapping; keys are strings.  Python 2 leaves
      that order unspecified; a key assigned for the first time is placed
      last here.
    - Strings are sequences of code points below 256; numbers are integers.
    - [json.loads (json.dumps t)] is modelled on trees ([json_roundtrip]); the
      parsers themselves are outside the embedding.
    - The text that [str] produces for a list, a dict or a tuple is a
      parameter ([container_str]). *)

From Stdlib Require Import String Ascii List ZArith Bool Arith Lia.
From Stdlib Require Import Permutation DecimalString.
Import ListNotations.
Local Open Scope list_scope.
Local Open Scope string_scope.

(** ** Python values *)

#[local] Set Warnings "-register-all".

Inductive value : Type :=
| VNone
| VBool (b : bool)
| VInt (z : Z)
| VStr (s : string)
| VList (l : list value)
| VDict (items : list (string * value))
| VTuple (fields : list (string * value)).

(** The exceptions that the module can raise: the interpreter's own, and
    [ValidationError], the one class the module defines.  [ValidationError]
    keeps the list that is formatted into its message. *)
Inductive exn : Type :=
| AttributeError
| KeyError
| TypeError
| ValueError
| IndexError
| UnicodeEncodeError
| SyntaxError
| ValidationError (model_names : list value).

Definition exn_name (e : exn) : string :=
  match e with
  | AttributeError => "AttributeError"
  | KeyError => "KeyError"
  | TypeError => "TypeError"
  | ValueError => "ValueError"
  | IndexError => "IndexError"
  | UnicodeEncodeError => "UnicodeEncodeError"
  | SyntaxError => "SyntaxError"
  | ValidationError _ => "ValidationError"
  end.

Inductive result (A : Type) : Type :=
| Ok (a : A)
| Raise (e : exn).
Arguments Ok {A} a.
Arguments Raise {A} e.

Definition bind {A B : Type} (c : result A) (k : A -> result B) : result B :=
  match c with
  | Ok a => k a
  | Raise e => Raise e
  end.

Declare Scope py_scope.
Delimit Scope py_scope with py.
Notation "x <- c1 ;; c2" := (bind c1 (fun x => c2))
  (at level 61, c1 at next level, right associativity) : py_scope.
Notation "c1 ;; c2" := (bind c1 (fun _ => c2))
  (at level 61, right associativity) : py_scope.
Local Open Scope py_scope.

(** ** Mappings *)

Section Assoc.
Context {A : Type}.

(** [d.get(k)] *)
Fixpoint lookup (k : string) (d : list (string * A)) : option A :=
  match d with
  | [] => None
  | (k', v) :: d' => if String.eqb k k' then Some v else lookup k d'
  end.

(** [d[k] = v] *)
Fixpoint dict_set (k : string) (v : A) (d : list (string * A))
  : list (string * A) :=
  match d with
  | [] => [(k, v)]
  | (k', v') :: d' =>
      if String.eqb k k' then (k, v) :: d' else (k', v') :: dict_set k v d'
  end.
End Assoc.

Definition keys {A : Type} (d : list (string * A)) : list string := map fst d.

(** ** Strings *)

Definition is_ascii (s : string) : bool :=
  forallb (fun c => Nat.ltb (nat_of_ascii c) 128) (list_ascii_of_string s).

(** [s.replace(old, new)] for a non-empty [old]: occurrences are replaced from
    left to right and do not overlap; [skip] counts the characters of the
    occurrence being replaced that are still to be passed over. *)
Fixpoint replace_from (old new : string) (skip : nat) (s : string) : string :=
  match s with
  | EmptyString => EmptyString
  | String c s' =>
      match skip with
      | S n => replace_from old new n s'
      | O =>
          if prefix old s
          then new ++ replace_from old new (String.length old - 1) s'
          else String c (replace_from old new 0 s')
      end
  end.

Definition str_replace (old new s : string) : string :=
  replace_from old new 0 s.

Definition startswith (p s : string) : bool := prefix p s.

Definition endswith (suffix s : string) : bool :=
  let n := String.length s in
  let m := String.length suffix in
  Nat.leb m n && String.eqb (substring (n - m) m s) suffix.

(** [posixpath.join(a, b)] *)
Definition path_join (a b : string) : string :=
  if startswith "/" b then b
  else if String.eqb a "" || endswith "/" a then a ++ b
  else a ++ "/" ++ b.

(** Number of (possibly overlapping) occurrences of [p] in [s]. *)
Fixpoint occurrences (p s : string) : nat :=
  match s with
  | EmptyString => if prefix p s then 1 else 0
  | String _ s' => (if prefix p s then 1 else 0) + occurrences p s'
  end.

Definition contains (p s : string) : bool := Nat.ltb 0 (occurrences p s).

Definition decimal (z : Z) : string := NilZero.string_of_int (Z.to_int z).

(** ** Truth value, attribute access, subscription *)

(** [bool(v)] *)
Definition truthy (v : value) : bool :=
  match v with
  | VNone => false
  | VBool b => b
  | VInt z => negb (Z.eqb z 0)
  | VStr s => negb (String.eqb s "")
  | VList l => match l with [] => false | _ => true end
  | VDict d => match d with [] => false | _ => true end
  | VTuple f => match f with [] => false | _ => true end
  end.

(** [v.name] for a name that is neither a method of a built-in type nor
    starts with an underscore: only the fields of a named tuple answer. *)
Definition getattr (v : value) (name : string) : result value :=
  match v with
  | VTuple fields =>
      match lookup name fields with
      | Some x => Ok x
      | None => Raise AttributeError
      end
  | _ => Raise AttributeError
  end.

(** [getattr(v, name, default)] *)
Definition getattr_default (v : value) (name : string) (default : value)
  : value :=
  match getattr v name with
  | Ok x => x
  | Raise _ => default
  end.

(** [v[key]] with a string key *)
Definition getitem (v : value) (key : string) : result value :=
  match v with
  | VDict d =>
      match lookup key d with
      | Some x => Ok x
      | None => Raise KeyError
      end
  | _ => Raise TypeError
  end.

(** [v.get(key, default)] *)
Definition dict_get (v : value) (key : string) (default : value)
  : result value :=
  match v with
  | VDict d =>
      match lookup key d with
      | Some x => Ok x
      | None => Ok default
      end
  | _ => Raise AttributeError
  end.

(** [v[key] = x] with a string key *)
Definition setitem (v : value) (key : string) (x : value) : result value :=
  match v with
  | VDict d => Ok (VDict (dict_set key x d))
  | _ => Raise TypeError
  end.

(** [iter(v)]: the values a [for] loop over [v] visits. *)
Definition iterate (v : value) : result (list value) :=
  match v with
  | VList l => Ok l
  | VTuple f => Ok (map snd f)
  | VDict d => Ok (map VStr (keys d))
  | VStr s =>
      Ok (map (fun c => VStr (String c EmptyString)) (list_ascii_of_string s))
  | VNone | VBool _ | VInt _ => Raise TypeError
  end.

(** [for x in l: ys.append(f(x))], stopping at the first exception. *)
Fixpoint for_each {A B : Type} (f : A -> result B) (l : list A)
  : result (list B) :=
  match l with
  | [] => Ok []
  | x :: l' => y <- f x ;; ys <- for_each f l' ;; Ok (y :: ys)
  end.

(** ** collections.namedtuple *)

Definition isdigit (c : ascii) : bool :=
  let n := nat_of_ascii c in Nat.leb 48 n && Nat.leb n 57.

Definition isalnum (c : ascii) : bool :=
  let n := nat_of_ascii c in
  isdigit c || (Nat.leb 65 n && Nat.leb n 90) || (Nat.leb 97 n && Nat.leb n 122).

(** [keyword.kwlist] of Python 2.7 *)
Definition kwlist : list string :=
  [ "and"; "as"; "assert"; "break"; "class"; "continue"; "def"; "del";
    "elif"; "else"; "except"; "exec"; "finally"; "for"; "from"; "global";
    "if"; "import"; "in"; "is"; "lambda"; "not"; "or"; "pass"; "print";
    "raise"; "return"; "try"; "while"; "with"; "yield" ].

Definition iskeyword (s : string) : bool := existsb (String.eqb s) kwlist.

Definition identifier_chars (name : string) : bool :=
  forallb (fun c => isalnum c || Ascii.eqb c "_") (list_ascii_of_string name).

(** The first loop of [namedtuple] over the names: characters, keywords,
    leading digit.  The empty name passes the first two tests and fails on
    [name[0]]. *)
Definition check_name (name : string) : result unit :=
  if negb (identifier_chars name) then Raise ValueError
  else if iskeyword name then Raise ValueError
  else match name with
       | EmptyString => Raise IndexError
       | String c _ => if isdigit c then Raise ValueError else Ok tt
       end.

Fixpoint check_names (names : list string) : result unit :=
  match names with
  | [] => Ok tt
  | name :: rest => check_name name ;; check_names rest
  end.

(** The second loop: leading underscore, repeated name. *)
Fixpoint check_fields (seen names : list string) : result unit :=
  match names with
  | [] => Ok tt
  | name :: rest =>
      if startswith "_" name then Raise ValueError
      else if existsb (String.eqb name) seen then Raise ValueError
      else check_fields (name :: seen) rest
  end.

(** [namedtuple('Config', new_mapping.iterkeys())] applied to the entries of
    [new_mapping] as keyword arguments.  The field names are first passed
    through [str], which refuses a character that is not ASCII; after the two
    loops the class is compiled from a template in which the names are the
    parameters of a function, and the compiler refuses the name [None] and
    more than 255 parameters (the class itself is the first). *)
Definition namedtuple (new_mapping : list (string * value)) : result value :=
  let field_names := keys new_mapping in
  if negb (forallb is_ascii field_names) then Raise UnicodeEncodeError
  else
    check_names field_names ;;
    check_fields [] field_names ;;
    if existsb (String.eqb "None") field_names
       || Nat.leb 255 (List.length field_names)
    then Raise SyntaxError
    else Ok (VTuple new_mapping).

(** [nt._asdict()] *)
Definition _asdict (v : value) : result (list (string * value)) :=
  match v with
  | VTuple fields => Ok fields
  | _ => Raise AttributeError
  end.

(** ** The module *)

Definition MODELS : string := "models".

Definition BUILD_ONLY_ELEMENTS : list string :=
  [ "/firmware";
    "/audio/main/card";
    "/audio/main/cras-config-subdir";
    "/audio/main/files" ].

Definition CRAS_CONFIG_DIR : string := "/etc/cras".

(** [k.replace('-', '_').replace('@', '_')] *)
Definition field_name (k : string) : string :=
  str_replace "@" "_" (str_replace "-" "_" k).

(** [GetNamedTuple]: a mapping becomes a named tuple whose fields are the
    converted values under the rewritten keys; the elements of a list that is
    the value of a key are converted one by one; everything else is returned
    as it is.  [new_mapping] is a dict: a rewritten key that is already there
    has its value replaced. *)
Fixpoint GetNamedTuple (mapping : value) : result value :=
  match mapping with
  | VDict items =>
      new_mapping <-
        (fix loop (items : list (string * value))
                  (new_mapping : list (string * value))
           : result (list (string * value)) :=
           match items with
           | [] => Ok new_mapping
           | (k, v) :: rest =>
               match v with
               | VList l =>
                   new_list <-
                     (fix each (l : list value) : result (list value) :=
                        match l with
                        | [] => Ok []
                        | val :: l' =>
                            x <- GetNamedTuple val ;;
                            xs <- each l' ;;
                            Ok (x :: xs)
                        end) l ;;
                   loop rest (dict_set (field_name k) (VList new_list) new_mapping)
               | _ =>
                   x <- GetNamedTuple v ;;
                   loop rest (dict_set (field_name k) x new_mapping)
               end
           end) items [] ;;
      namedtuple new_mapping
  | _ => Ok mapping
  end.

(** ** json.dumps(obj, sort_keys=True, indent=2) *)

(** Comparison of strings by code point, as [sorted] compares keys. *)
Fixpoint str_leb (a b : string) : bool :=
  match a, b with
  | EmptyString, _ => true
  | String _ _, EmptyString => false
  | String x a', String y b' =>
      if Nat.ltb (nat_of_ascii x) (nat_of_ascii y) then true
      else if Nat.ltb (nat_of_ascii y) (nat_of_ascii x) then false
      else str_leb a' b'
  end.

Section Sorted_items.
Context {A : Type}.

Fixpoint insert_item (kv : string * A) (l : list (string * A))
  : list (string * A) :=
  match l with
  | [] => [kv]
  | kv' :: l' =>
      if str_leb (fst kv) (fst kv') then kv :: l else kv' :: insert_item kv l'
  end.

(** [sorted(dct.items(), key=lambda kv: kv[0])] *)
Fixpoint sorted_items (l : list (string * A)) : list (string * A) :=
  match l with
  | [] => []
  | kv :: l' => insert_item kv (sorted_items l')
  end.
End Sorted_items.

Definition hex_digit (n : nat) : ascii :=
  nth n (list_ascii_of_string "0123456789abcdef") "0"%char.

Definition quote : string := String (ascii_of_nat 34) EmptyString.

(** One character of a string literal with [ensure_ascii]. *)
Definition escape_char (c : ascii) : string :=
  let n := nat_of_ascii c in
  if Nat.eqb n 34 then "\" ++ quote
  else if Nat.eqb n 92 then "\\"
  else if Nat.eqb n 8 then "\b"
  else if Nat.eqb n 12 then "\f"
  else if Nat.eqb n 10 then "\n"
  else if Nat.eqb n 13 then "\r"
  else if Nat.eqb n 9 then "\t"
  else if Nat.ltb n 32 || Nat.ltb 126 n
       then "\u00" ++ String (hex_digit (n / 16))
                        (String (hex_digit (n mod 16)) EmptyString)
  else String c EmptyString.

Definition encode_basestring_ascii (s : string) : string :=
  quote ++ String.concat EmptyString (map escape_char (list_ascii_of_string s))
        ++ quote.

Fixpoint spaces (n : nat) : string :=
  match n with
  | O => EmptyString
  | S n' => String " " (spaces n')
  end.

(** A line break followed by the indentation of nesting depth [level]. *)
Definition newline_indent (level : nat) : string :=
  String (ascii_of_nat 10) (spaces (2 * level)).

(** The item separator of Python 2 is a comma and a space, also before a
    line break. *)
Definition item_separator (level : nat) : string :=
  ", " ++ newline_indent level.

Definition encode_list (level : nat) (chunks : list string) : string :=
  match chunks with
  | [] => "[]"
  | _ =>
      "[" ++ newline_indent (S level)
          ++ String.concat (item_separator (S level)) chunks
          ++ newline_indent level ++ "]"
  end.

Definition encode_dict (level : nat) (items : list (string * string))
  : string :=
  match items with
  | [] => "{}"
  | _ =>
      "{" ++ newline_indent (S level)
          ++ String.concat (item_separator (S level))
               (map (fun kv => encode_basestring_ascii (fst kv) ++ ": " ++ snd kv)
                    items)
          ++ newline_indent level ++ "}"
  end.

(** The text of [v] at nesting depth [level].  The items of a dict are
    rendered and put in key order; a tuple is written as a list. *)
Fixpoint iterencode (level : nat) (v : value) : string :=
  match v with
  | VNone => "null"
  | VBool true => "true"
  | VBool false => "false"
  | VInt z => decimal z
  | VStr s => encode_basestring_ascii s
  | VList l => encode_list level (map (iterencode (S level)) l)
  | VTuple fields =>
      encode_list level (map (fun '(_, x) => iterencode (S level) x) fields)
  | VDict items =>
      encode_dict level
        (sorted_items (map (fun '(k, x) => (k, iterencode (S level) x)) items))
  end.

Definition json_dumps (v : value) : string := iterencode 0 v.

(** [json.loads(json.dumps(v, sort_keys=True, indent=2))]: the same tree with
    every dict rebuilt from its items in key order, and tuples read back as
    lists. *)
Fixpoint json_roundtrip (v : value) : value :=
  match v with
  | VList l => VList (map json_roundtrip l)
  | VTuple fields => VList (map (fun '(_, x) => json_roundtrip x) fields)
  | VDict items =>
      VDict (sorted_items (map (fun '(k, x) => (k, json_roundtrip x)) items))
  | _ => v
  end.

(** ** Hashing and [set] *)

Definition value_eq_dec : forall a b : value, {a = b} + {a <> b}.
Proof.
  fix IH 1.
  decide equality;
    try (apply list_eq_dec; try exact IH; decide equality; apply string_dec);
    try apply string_dec; try apply Z.eq_dec; try apply bool_dec.
Defined.

(** The representative under which a set stores [v]: [True] and [False] are
    the integers 1 and 0, a named tuple is a plain tuple, lists and dicts
    cannot be hashed. *)
Fixpoint hash_key (v : value) : result value :=
  match v with
  | VBool b => Ok (VInt (if b then 1 else 0))
  | VList _ | VDict _ => Raise TypeError
  | VTuple fields =>
      ks <-
        (fix each (f : list (string * value)) : result (list (string * value)) :=
           match f with
           | [] => Ok []
           | (_, x) :: f' =>
               k <- hash_key x ;; ks <- each f' ;; Ok ((EmptyString, k) :: ks)
           end) fields ;;
      Ok (VTuple ks)
  | _ => Ok v
  end.

(** [len(set(l))] *)
Definition len_set (l : list value) : result nat :=
  ks <- for_each hash_key l ;;
  Ok (List.length (nodup value_eq_dec ks)).

(** ** The module, continued *)

Section cros_config_schema.

(** [str(v)] for a list, a dict or a tuple. *)
Variable container_str : value -> string.

(** [jsonschema.validate(instance, schema)] *)
Variable validate : value -> value -> result unit.

(** [str(v)] *)
Definition py_str (v : value) : string :=
  match v with
  | VNone => "None"
  | VBool true => "True"
  | VBool false => "False"
  | VInt z => decimal z
  | VStr s => s
  | VList _ | VDict _ | VTuple _ => container_str v
  end.

(** The text put for the one [%s] of a format whose right operand is [v]: a
    tuple operand is the argument list itself. *)
Definition format_arg (v : value) : result string :=
  match v with
  | VTuple [(_, x)] => Ok (py_str x)
  | VTuple _ => Raise TypeError
  | _ => Ok (py_str v)
  end.

(** The text put for [{name}] by [str.format] on a byte-string template: a
    unicode argument is encoded with the ASCII codec. *)
Definition format_field (v : value) : result string :=
  match v with
  | VStr s => if is_ascii s then Ok s else Raise UnicodeEncodeError
  | _ => Ok (py_str v)
  end.

(** [s.replace(old, new)] as a method call on any value: a field of that name
    on a named tuple is not callable. *)
Definition call_replace (v : value) (old new : string) : result string :=
  match v with
  | VStr s => Ok (str_replace old new s)
  | VTuple fields =>
      match lookup "replace" fields with
      | Some _ => Raise TypeError
      | None => Raise AttributeError
      end
  | _ => Raise AttributeError
  end.

(** [os.path.join(a, b)] with any value for [b]: [posixpath.join] starts by
    calling [b.startswith]. *)
Definition os_path_join (a : string) (b : value) : result string :=
  match b with
  | VStr s => Ok (path_join a s)
  | VTuple fields =>
      match lookup "startswith" fields with
      | Some _ => Raise TypeError
      | None => Raise AttributeError
      end
  | _ => Raise AttributeError
  end.

(** The inner function of [_GetAudioFiles]; [files] is its closure variable. *)
Definition _AddAudioFile (files : list value) (source dest : string)
  (file : value) : result (list value) :=
  s <- os_path_join source file ;;
  d <- os_path_join dest file ;;
  Ok (files ++ [VDict [("source", VStr s); ("dest", VStr d)]])%list.

Definition _GetAudioFiles (model_dict : value) : result (list value) :=
  let files := [] in
  model <- GetNamedTuple model_dict ;;
  audio <- getattr model "audio" ;;
  main <- getattr audio "main" ;;
  card <- getattr main "card" ;;
  subdir <- getattr main "cras_config_subdir" ;;
  subdir_path <-
    (if truthy subdir then s <- format_arg subdir ;; Ok (s ++ "/")
     else Ok EmptyString) ;;
  let cras_source := "cras-config" in
  let cras_dest := CRAS_CONFIG_DIR in
  files <- _AddAudioFile files cras_source cras_dest
             (VStr (subdir_path ++ py_str card)) ;;
  files <- _AddAudioFile files cras_source cras_dest
             (VStr (subdir_path ++ "dsp.ini")) ;;
  let ucm_source := "ucm-config" in
  let ucm_dest := "/ucm/share/alsa/ucm" in
  let ucm_suffix := getattr_default main "ucm-suffix" VNone in
  ucm_suffix_path <-
    (if truthy ucm_suffix then s <- format_arg ucm_suffix ;; Ok ("." ++ s)
     else Ok EmptyString) ;;
  let ucm_card_path := py_str card ++ ucm_suffix_path in
  files <- _AddAudioFile files ucm_source ucm_dest
             (VStr (path_join ucm_card_path "HiFi.conf")) ;;
  files <- _AddAudioFile files ucm_source ucm_dest
             (VStr (path_join ucm_card_path (ucm_card_path ++ ".conf"))) ;;
  if truthy (getattr_default main "firmware_bin" VNone)
  then
    firmware_bin <- getattr main "firmware_bin" ;;
    _AddAudioFile files "topology" "/lib/firmware" firmware_bin
  else Ok files.

(** The template of a firmware URI, filled in. *)
Definition uri_format (bcs base_model fname : string) : string :=
  "gs://chromeos-binaries/HOME/bcs-" ++ bcs ++ "/overlay-" ++ bcs
    ++ "/chromeos-base/chromeos-firmware-" ++ base_model ++ "/" ++ fname.

Definition _GetFirmwareUris (model_dict : value) : result (list value) :=
  model <- GetNamedTuple model_dict ;;
  fw <- getattr model "firmware" ;;
  fw_dict <- _asdict fw ;;
  bcs <- getattr fw "bcs_overlay" ;;
  if negb (truthy bcs) then Ok []
  else
    bcs_overlay <- call_replace bcs "overlay-" EmptyString ;;
    build_targets <- getattr fw "build_targets" ;;
    base_model <- getattr build_targets "coreboot" ;;
    let valid_images :=
      map snd (filter (fun np => endswith "image" (fst np) && truthy (snd np))
                      fw_dict) in
    for_each
      (fun fname =>
         _ <- getattr model "name" ;;
         b <- format_field (VStr bcs_overlay) ;;
         m <- format_field base_model ;;
         f <- format_field fname ;;
         Ok (VStr (uri_format b m f)))
      valid_images.

(** The body of the loop of [TransformConfig] for one model.  [audio] is the
    dict stored under [model['audio']['main']], so an assignment to it is an
    assignment in the model: the model is rebuilt around it after each one.
    (The tree comes out of [json.loads], where no two places share a dict.) *)
Definition transform_model (model : value) : result value :=
  let cras_config_dir_name := "cras-config-dir" in
  let cras_config_subdir_name := "cras-config-subdir" in
  audio_parent <- getitem model "audio" ;;
  audio <- getitem audio_parent "main" ;;
  main_dir <- dict_get audio cras_config_dir_name (VStr CRAS_CONFIG_DIR) ;;
  sub_dir <- dict_get audio cras_config_subdir_name VNone ;;
  let main_dir :=
    if truthy sub_dir then VStr (py_str main_dir ++ "/" ++ py_str sub_dir)
    else main_dir in
  audio <- setitem audio cras_config_dir_name main_dir ;;
  audio_parent <- setitem audio_parent "main" audio ;;
  model <- setitem model "audio" audio_parent ;;
  files <- _GetAudioFiles model ;;
  audio <- setitem audio "files" (VList files) ;;
  audio_parent <- setitem audio_parent "main" audio ;;
  model <- setitem model "audio" audio_parent ;;
  uris <- _GetFirmwareUris model ;;
  firmware <- getitem model "firmware" ;;
  firmware <- setitem firmware "bcs-uris" (VList uris) ;;
  setitem model "firmware" firmware.

(** [TransformConfig] up to its last line: the tree that is serialized.  The
    argument is the tree that [yaml.load] returned. *)
Definition TransformConfig_tree (config_yaml : value) : result value :=
  let json_config := json_roundtrip config_yaml in
  models <- getitem json_config MODELS ;;
  visited <- iterate models ;;
  derived <- for_each transform_model visited ;;
  let models := match models with VList _ => VList derived | _ => models end in
  Ok (VDict [(MODELS, models)]).

Definition TransformConfig (config_yaml : value) : result string :=
  json_config <- TransformConfig_tree config_yaml ;;
  Ok (json_dumps json_config).

Definition in_build_only (full_path : string) : bool :=
  existsb (String.eqb full_path) BUILD_ONLY_ELEMENTS.

(** [_FilterBuildElements(config, path)] for a dict [config], as every
    recursive call has it: the keys on the list are dropped, the dicts under
    the other keys are filtered in turn. *)
Fixpoint _FilterBuildElements (config : value) (path : string) : value :=
  match config with
  | VDict items =>
      VDict
        ((fix each (items : list (string * value)) : list (string * value) :=
            match items with
            | [] => []
            | (key, v) :: rest =>
                let full_path := path ++ "/" ++ key in
                if in_build_only full_path then each rest
                else
                  match v with
                  | VDict _ => (key, _FilterBuildElements v full_path) :: each rest
                  | _ => (key, v) :: each rest
                  end
            end) items)
  | _ => config
  end.

(** [_FilterBuildElements(model, "")] for a model that is a sequence: an
    element is looked up as an index unless its path is on the list, and the
    elements whose path is on the list are handed to [pop] at the end, which
    takes them for indices ([on_pop] is what [pop] raises). *)
Fixpoint filter_sequence (len : Z) (on_pop : exn) (pending : bool)
  (l : list value) : result unit :=
  let index i :=
    if (Z.leb (- len) i && Z.ltb i len)%bool
    then filter_sequence len on_pop pending
    else fun _ => Raise IndexError in
  match l with
  | [] => if pending then Raise on_pop else Ok tt
  | key :: rest =>
      match key with
      | VStr s =>
          if in_build_only ("/" ++ s)
          then filter_sequence len on_pop true rest
          else Raise TypeError
      | VInt i => index i rest
      | VBool b => index (if b then 1%Z else 0%Z) rest
      | _ => Raise TypeError
      end
  end.

(** [_FilterBuildElements(model, "")] for any model of a document. *)
Definition filter_model (model : value) : result value :=
  match model with
  | VDict _ => Ok (_FilterBuildElements model EmptyString)
  | VList l =>
      filter_sequence (Z.of_nat (List.length l)) TypeError false l ;; Ok model
  | VTuple f =>
      filter_sequence (Z.of_nat (List.length f)) AttributeError false
        (map snd f) ;;
      Ok model
  | VStr EmptyString => Ok model
  | _ => Raise TypeError
  end.

(** [FilterBuildElements] up to its last line; the argument is the tree that
    [json.loads] returned. *)
Definition FilterBuildElements_tree (json_config : value) : result value :=
  models <- getitem json_config MODELS ;;
  visited <- iterate models ;;
  filtered <- for_each filter_model visited ;;
  match models with
  | VList _ => setitem json_config MODELS (VList filtered)
  | _ => Ok json_config
  end.

Definition FilterBuildElements (json_config : value) : result string :=
  json_config <- FilterBuildElements_tree json_config ;;
  Ok (json_dumps json_config).

(** [ValidateConfig]; the argument is the tree that [json.loads] returned. *)
Definition ValidateConfig (json_config : value) : result unit :=
  models <- getitem json_config "models" ;;
  visited <- iterate models ;;
  model_names <- for_each (fun model => getitem model "name") visited ;;
  n <- len_set model_names ;;
  if negb (Nat.eqb (List.length model_names) n)
  then Raise (ValidationError model_names)
  else Ok tt.

(** [ValidateConfigSchema]; both arguments are trees. *)
Definition ValidateConfigSchema (schema_yaml json_config : value)
  : result unit :=
  validate json_config (json_roundtrip schema_yaml).

(** [Main] without the files: from the two loaded documents to the text
    that is written. *)
Definition Main (schema config : value) (filter_build_details : bool)
  : result string :=
  json_transform <- TransformConfig_tree config ;;
  let loaded := json_roundtrip json_transform in
  ValidateConfigSchema schema loaded ;;
  ValidateConfig loaded ;;
  if filter_build_details then FilterBuildElements loaded
  else Ok (json_dumps json_transform).

End cros_config_schema.

(** * Definitions used in the statements *)

(** ** Induction on values *)

(** The induction principle that reaches the values inside lists, dicts and
    tuples. *)
Section Value_induction.
Variable P : value -> Prop.
Hypothesis HNone : P VNone.
Hypothesis HBool : forall b, P (VBool b).
Hypothesis HInt : forall z, P (VInt z).
Hypothesis HStr : forall s, P (VStr s).
Hypothesis HList : forall l, Forall P l -> P (VList l).
Hypothesis HDict :
  forall items, Forall (fun kv => P (snd kv)) items -> P (VDict items).
Hypothesis HTuple :
  forall fields, Forall (fun kv => P (snd kv)) fields -> P (VTuple fields).

Fixpoint value_induction (v : value) : P v :=
  let items_ind :=
    fix items_ind (items : list (string * value))
      : Forall (fun kv => P (snd kv)) items :=
      match items with
      | [] => Forall_nil _
      | (k, x) :: rest =>
          Forall_cons (k, x) (value_induction x) (items_ind rest)
      end in
  match v with
  | VNone => HNone
  | VBool b => HBool b
  | VInt z => HInt z
  | VStr s => HStr s
  | VList l =>
      HList l
        ((fix list_ind (l : list value) : Forall P l :=
            match l with
            | [] => Forall_nil _
            | x :: rest => Forall_cons x (value_induction x) (list_ind rest)
            end) l)
  | VDict items => HDict items (items_ind items)
  | VTuple fields => HTuple fields (items_ind fields)
  end.
End Value_induction.

(** ** The record conversion *)

(** [map] on the characters of a string. *)
Definition map_string (f : ascii -> ascii) (s : string) : string :=
  string_of_list_ascii (map f (list_ascii_of_string s)).

(** The rewriting of a key, character by character. *)
Definition field_char (c : ascii) : ascii :=
  if Ascii.eqb "-" c then "_"%char
  else if Ascii.eqb "@" c then "_"%char else c.

(** The value stored for one item of the mapping. *)
Definition convert_value (v : value) : result value :=
  match v with
  | VList l => new_list <- for_each GetNamedTuple l ;; Ok (VList new_list)
  | _ => GetNamedTuple v
  end.

(** The loop of [GetNamedTuple] over the items, from a given [new_mapping]. *)
Fixpoint convert_items (items new_mapping : list (string * value))
  : result (list (string * value)) :=
  match items with
  | [] => Ok new_mapping
  | (k, v) :: rest =>
      x <- convert_value v ;;
      convert_items rest (dict_set (field_name k) x new_mapping)
  end.

(** ** Manifests and images *)

(** One entry of a manifest. *)
Definition asset (source dest : string) : value :=
  VDict [("source", VStr source); ("dest", VStr dest)].

(** The manifest that [_GetAudioFiles] builds from the text of the card, the
    subdirectory prefix and the UCM directory name. *)
Definition audio_manifest (subdir_path card ucm_card_path : string)
  : list value :=
  let entry source dest file :=
    asset (path_join source file) (path_join dest file) in
  [ entry "cras-config" CRAS_CONFIG_DIR (subdir_path ++ card);
    entry "cras-config" CRAS_CONFIG_DIR (subdir_path ++ "dsp.ini");
    entry "ucm-config" "/ucm/share/alsa/ucm"
      (path_join ucm_card_path "HiFi.conf");
    entry "ucm-config" "/ucm/share/alsa/ucm"
      (path_join ucm_card_path (ucm_card_path ++ ".conf")) ].

(** The manifest of the card [bay] without subdirectory and suffix. *)
Definition bay_manifest : list value :=
  [ asset "cras-config/bay" "/etc/cras/bay";
    asset "cras-config/dsp.ini" "/etc/cras/dsp.ini";
    asset "ucm-config/bay/HiFi.conf" "/ucm/share/alsa/ucm/bay/HiFi.conf";
    asset "ucm-config/bay/bay.conf" "/ucm/share/alsa/ucm/bay/bay.conf" ].

(** The images that get a URI: the values of the non-empty fields whose name
    ends in [image], in the order of the fields. *)
Definition valid_images (fw_dict : list (string * value)) : list value :=
  map snd (filter (fun np => endswith "image" (fst np) && truthy (snd np))
                  fw_dict).

(** ** The filter *)

(** The loop of [_FilterBuildElements] over the items of a dict. *)
Fixpoint filter_items (path : string) (items : list (string * value))
  : list (string * value) :=
  match items with
  | [] => []
  | (key, v) :: rest =>
      let full_path := path ++ "/" ++ key in
      if in_build_only full_path then filter_items path rest
      else (key, _FilterBuildElements v full_path) :: filter_items path rest
  end.

(** No path on the list lies below [path]. *)
Definition nothing_below (path : string) : bool :=
  forallb (fun b => negb (prefix (path ++ "/") b)) BUILD_ONLY_ELEMENTS.

(** No slash in the key. *)
Definition slash_free (k : string) : bool :=
  negb (existsb (Ascii.eqb "/") (list_ascii_of_string k)).

(** The keys that the filter drops from [audio/main]. *)
Definition build_only_main_key (k : string) : bool :=
  existsb (String.eqb k) ["card"; "cras-config-subdir"; "files"].

(** What the filter has done to a model [m] when it returns [m']: the
    firmware entry is gone; under [audio], the entries [card],
    [cras-config-subdir] and [files] of [main] are gone and [main] keeps its
    other items, and the other entries of [audio] are as they were. *)
Definition filtered_model (m m' : list (string * value)) : Prop :=
  lookup "firmware" m' = None
  /\ forall a,
      lookup "audio" m = Some (VDict a) ->
      exists a',
        lookup "audio" m' = Some (VDict a')
        /\ (forall k, slash_free k = true -> k <> "main" ->
                      lookup k a' = lookup k a)
        /\ (forall mn,
              lookup "main" a = Some (VDict mn) ->
              lookup "main" a'
              = Some (VDict (filter
                               (fun kv => negb (build_only_main_key (fst kv)))
                               mn))).

(** ** Trees with the same content *)



(** ** Sample documents *)

(** A rendering of containers for the runs below, none of which renders
    one. *)
Definition no_container_str : value -> string := fun _ => EmptyString.

(** A model with the given entries in [audio/main]. *)
Definition model_with_audio (name firmware : value)
  (main : list (string * value)) : value :=
  VDict [ ("name", name);
          ("audio", VDict [("main", VDict main)]);
          ("firmware", firmware) ].

(** The audio and firmware descriptors of a model, and the model. *)
Definition reef_main : list (string * value) :=
  [ ("card", VStr "bxtda7219max");
    ("cras-config-subdir", VStr EmptyString) ].

Definition reef_firmware : value :=
  VDict [ ("bcs-overlay", VStr "overlay-reef-private");
          ("build-targets", VDict [("coreboot", VStr "reef")]);
          ("main-image", VStr "Reef.9042.87.1.tbz2");
          ("ec-image", VStr "Reef_EC.9042.87.1.tbz2");
          ("pd-image", VStr EmptyString) ].

Definition reef : value := model_with_audio (VStr "reef") reef_firmware reef_main.

(** No overlay field. *)
Definition reef_no_overlay : value :=
  model_with_audio (VStr "reef")
    (VDict [ ("build-targets", VDict [("coreboot", VStr "reef")]);
             ("main-image", VStr "Reef.9042.87.1.tbz2") ])
    reef_main.

(** An overlay, and build targets without [coreboot]. *)
Definition reef_no_coreboot : value :=
  model_with_audio (VStr "reef")
    (VDict [ ("bcs-overlay", VStr "overlay-reef-private");
             ("build-targets", VDict [("ec", VStr "reef")]);
             ("main-image", VStr "Reef.9042.87.1.tbz2") ])
    reef_main.

(** A source document with one model, and what [TransformConfig] makes of
    it. *)
Definition reef_config : value :=
  VDict [ ("base-audio", VDict [("card", VStr "bxtda7219max")]);
          ("models", VList [reef]) ].

Definition reef_transformed : value :=
  Eval vm_compute in
    match TransformConfig_tree no_container_str reef_config with
    | Ok t => t
    | Raise _ => VNone
    end.


(** ** Definitions for the further properties *)

(** The directory that [TransformConfig] stores under [cras-config-dir] for
    an audio descriptor: the authored one or the default, followed by the
    subdirectory when there is one. *)
Definition resolved_dir (container_str : value -> string)
  (main : list (string * value)) : value :=
  let base :=
    match lookup "cras-config-dir" main with
    | Some dir => dir
    | None => VStr CRAS_CONFIG_DIR
    end in
  let sub_dir :=
    match lookup "cras-config-subdir" main with
    | Some sub => sub
    | None => VNone
    end in
  if truthy sub_dir
  then VStr (py_str container_str base ++ "/" ++ py_str container_str sub_dir)
  else base.

(** A model with a subdirectory, a UCM suffix and a topology binary. *)
Definition basking_main : list (string * value) :=
  [ ("card", VStr "bxtda7219max");
    ("cras-config-subdir", VStr "basking");
    ("ucm-suffix", VStr "basking");
    ("firmware-bin", VStr "dfw_sst.bin") ].

Definition basking : value :=
  model_with_audio (VStr "basking") reef_firmware basking_main.

(** The prefix that a subdirectory puts before the two CRAS files. *)
Definition subdir_prefix (subdir : string) : string :=
  if String.eqb subdir EmptyString then EmptyString else subdir ++ "/".

(** The paths of the entries of a tree of dicts below [path], as
    [_FilterBuildElements] forms them; lists are not entered. *)
Fixpoint dict_paths (v : value) (path : string) : list string :=
  match v with
  | VDict items =>
      (fix each (items : list (string * value)) : list string :=
         match items with
         | [] => []
         | (key, x) :: rest =>
             let full_path := path ++ "/" ++ key in
             (full_path :: dict_paths x full_path ++ each rest)%list
         end) items
  | _ => []
  end.

Fixpoint items_paths (path : string) (items : list (string * value))
  : list string :=
  match items with
  | [] => []
  | (key, x) :: rest =>
      let full_path := path ++ "/" ++ key in
      (full_path :: dict_paths x full_path ++ items_paths path rest)%list
  end.

(** The keys of the list are in order. *)
Fixpoint keys_in_order {A : Type} (l : list (string * A)) : Prop :=
  match l with
  | [] => True
  | x :: l' =>
      match l' with
      | [] => True
      | y :: _ => str_leb (fst x) (fst y) = true
      end /\ keys_in_order l'
  end.

(** The document with the model [reef] twice, transformed. *)
Definition reef_twice_transformed : value :=
  Eval vm_compute in
    match TransformConfig_tree no_container_str
            (VDict [("models", VList [reef; reef])]) with
    | Ok t => t
    | Raise _ => VNone
    end.

(** * Properties *)

(** ** The error monad *)

Lemma bind_Ok {A B : Type} (c : result A) (k : A -> result B) (b : B) :
  bind c k = Ok b -> exists a, c = Ok a /\ k a = Ok b.
Proof. destruct c as [a|e]; simpl; intros H; [eauto | discriminate]. Qed.

Tactic Notation "bind_inv" hyp(H) "as" ident(x) ident(Hx) :=
  apply bind_Ok in H; destruct H as (x & Hx & H).

Tactic Notation "bind_inv" hyp(H) :=
  let a := fresh "a" in
  let Ha := fresh "H" a in
  bind_inv H as a Ha.

Lemma for_each_Ok_Forall2 {A B : Type} (f : A -> result B) l ys :
  for_each f l = Ok ys -> Forall2 (fun x y => f x = Ok y) l ys.
Proof.
  revert ys; induction l as [|x l IH]; simpl; intros ys H.
  - injection H as <-; constructor.
  - bind_inv H. bind_inv H. injection H as <-. constructor; auto.
Qed.

Lemma Forall2_for_each_Ok {A B : Type} (f : A -> result B) l ys :
  Forall2 (fun x y => f x = Ok y) l ys -> for_each f l = Ok ys.
Proof.
  induction 1 as [|x y l ys Hxy _ IH]; simpl; [reflexivity|].
  rewrite Hxy; simpl. rewrite IH; reflexivity.
Qed.

(** ** Association lists *)

Section Assoc_facts.
Context {A : Type}.
Implicit Types (d : list (string * A)) (k : string) (v : A).

Lemma lookup_dict_set_eq k v d : lookup k (dict_set k v d) = Some v.
Proof.
  induction d as [|[k' v'] d IH]; simpl.
  - rewrite String.eqb_refl; reflexivity.
  - destruct (String.eqb k k') eqn:E; simpl.
    + rewrite String.eqb_refl; reflexivity.
    + rewrite E; exact IH.
Qed.

Lemma lookup_dict_set_neq k k0 v d :
  k0 <> k -> lookup k0 (dict_set k v d) = lookup k0 d.
Proof.
  intros Hne; induction d as [|[k' v'] d IH]; simpl.
  - apply String.eqb_neq in Hne; rewrite Hne; reflexivity.
  - destruct (String.eqb k k') eqn:E; simpl.
    + apply String.eqb_eq in E; subst k'.
      apply String.eqb_neq in Hne; rewrite Hne; reflexivity.
    + destruct (String.eqb k0 k'); [reflexivity | exact IH].
Qed.

Lemma keys_dict_set_in k v d n :
  In n (keys (dict_set k v d)) <-> n = k \/ In n (keys d).
Proof.
  unfold keys; induction d as [|[k' v'] d IH]; simpl.
  - intuition.
  - destruct (String.eqb k k') eqn:E; simpl.
    + apply String.eqb_eq in E; subst k'; intuition.
    + rewrite IH; intuition.
Qed.

Lemma keys_dict_set_NoDup k v d : NoDup (keys d) -> NoDup (keys (dict_set k v d)).
Proof.
  unfold keys; induction d as [|[k' v'] d IH]; simpl; intros H.
  - constructor; [intros [] | constructor].
  - inversion H as [|? ? Hnin Hnd]; subst.
    destruct (String.eqb k k') eqn:E; simpl.
    + apply String.eqb_eq in E; subst k'; constructor; assumption.
    + constructor; [| apply IH; assumption].
      intros Hin. apply (keys_dict_set_in k v d k') in Hin.
      destruct Hin as [->|Hin]; [| contradiction].
      rewrite String.eqb_refl in E; discriminate.
Qed.

End Assoc_facts.

(** ** Strings *)

Lemma replace_char a b s :
  str_replace (String a EmptyString) (String b EmptyString) s
  = map_string (fun c => if Ascii.eqb a c then b else c) s.
Proof.
  unfold str_replace, map_string.
  induction s as [|c s IH]; [reflexivity|].
  cbn [replace_from prefix String.length Nat.sub list_ascii_of_string map
       string_of_list_ascii].
  destruct (ascii_dec a c) as [->|Hne].
  - rewrite Ascii.eqb_refl. destruct s; cbn [append]; rewrite IH; reflexivity.
  - apply Ascii.eqb_neq in Hne. rewrite Hne, IH; reflexivity.
Qed.

Lemma field_name_chars k : field_name k = map_string field_char k.
Proof.
  unfold field_name. rewrite !replace_char. unfold map_string.
  rewrite list_ascii_of_string_of_list_ascii, map_map.
  f_equal. apply map_ext. intros c. unfold field_char.
  destruct (Ascii.eqb "-" c) eqn:E; [reflexivity|].
  reflexivity.
Qed.

Lemma field_name_no_hyphen_at k c :
  In c (list_ascii_of_string (field_name k)) -> c <> "-"%char /\ c <> "@"%char.
Proof.
  rewrite field_name_chars. unfold map_string.
  rewrite list_ascii_of_string_of_list_ascii, in_map_iff.
  intros (c0 & <- & _). unfold field_char.
  destruct (Ascii.eqb_spec "-" c0) as [<-|H1]; [split; discriminate|].
  destruct (Ascii.eqb_spec "@" c0) as [<-|H2]; [split; discriminate|].
  split; congruence.
Qed.

(** ** GetNamedTuple *)

Lemma GetNamedTuple_dict items :
  GetNamedTuple (VDict items)
  = (new_mapping <- convert_items items [] ;; namedtuple new_mapping).
Proof.
  cbn [GetNamedTuple]. f_equal.
  generalize (@nil (string * value)) as acc.
  induction items as [|[k v] rest IH]; intros acc; [reflexivity|].
  cbn [convert_items].
  assert (Hl : forall l,
    (fix each (l : list value) : result (list value) :=
       match l with
       | [] => Ok []
       | val :: l' => x <- GetNamedTuple val ;; xs <- each l' ;; Ok (x :: xs)
       end) l = for_each GetNamedTuple l).
  { induction l as [|a l IHl]; [reflexivity|]. cbn [for_each]. rewrite IHl. reflexivity. }
  destruct v; cbn [convert_value];
    try (destruct (GetNamedTuple _) eqn:E; cbn [bind]; [apply IH | reflexivity]);
    try (cbn [GetNamedTuple bind]; apply IH).
  rewrite Hl. destruct (for_each GetNamedTuple l); cbn [bind]; [apply IH | reflexivity].
Qed.

Lemma namedtuple_Ok fields r :
  namedtuple fields = Ok r ->
  r = VTuple fields /\ check_names (keys fields) = Ok tt.
Proof.
  unfold namedtuple.
  destruct (forallb is_ascii (keys fields)); cbn [negb]; [|discriminate].
  destruct (check_names (keys fields)) as [[]|] eqn:E1; cbn [bind]; [|discriminate].
  destruct (check_fields [] (keys fields)) as [[]|]; cbn [bind]; [|discriminate].
  destruct (existsb (String.eqb "None") (keys fields)
            || Nat.leb 255 (List.length (keys fields))); [discriminate|].
  intros H; injection H as <-; auto.
Qed.

(** What the loop leaves under a field name: the converted value of the last
    item whose key is rewritten to that name, and what was there before when
    there is no such item. *)
Lemma convert_items_lookup items : forall acc fields n,
  convert_items items acc = Ok fields ->
  (exists pre k v post x,
      items = (pre ++ (k, v) :: post)%list /\ field_name k = n /\
      (forall k', In k' (keys post) -> field_name k' <> n) /\
      convert_value v = Ok x /\ lookup n fields = Some x)
  \/ ((forall k', In k' (keys items) -> field_name k' <> n) /\
      lookup n fields = lookup n acc).
Proof.
  induction items as [|[k v] rest IH]; intros acc fields n H.
  - injection H as <-. right; split; [intros k' [] | reflexivity].
  - cbn [convert_items] in H. bind_inv H.
    destruct (IH _ _ n H) as [(pre & k0 & v0 & post & x & -> & Hk & Hpost & Hx & Hl)
                             | [Hnone Hl]].
    + left. exists ((k, v) :: pre), k0, v0, post, x. auto.
    + destruct (string_dec (field_name k) n) as [Heq|Hne].
      * left. exists [], k, v, rest, a. subst n.
        rewrite lookup_dict_set_eq in Hl. auto.
      * right. split.
        -- intros k' [<-|Hin]; auto.
        -- rewrite Hl. apply lookup_dict_set_neq; congruence.
Qed.

Lemma convert_items_keys items : forall acc fields,
  convert_items items acc = Ok fields ->
  (NoDup (keys acc) -> NoDup (keys fields)) /\
  (forall n, In n (keys fields) <->
             In n (keys acc) \/ exists k, In k (keys items) /\ field_name k = n).
Proof.
  induction items as [|[k v] rest IH]; intros acc fields H.
  - injection H as <-. split; [auto|]. intros n; split; [auto|].
    intros [H | (k & [] & _)]; exact H.
  - cbn [convert_items] in H. bind_inv H.
    destruct (IH _ _ H) as [Hnd Hin]. split.
    + intros Hacc. apply Hnd, keys_dict_set_NoDup, Hacc.
    + intros n. rewrite Hin, keys_dict_set_in. cbn [keys map fst In]. split.
      * intros [[->|Hacc] | (k' & Hk' & Hn)]; eauto.
      * intros [Hacc | (k' & [<-|Hk'] & Hn)]; eauto.
Qed.

Lemma check_names_Ok names :
  check_names names = Ok tt ->
  forall n, In n names -> identifier_chars n = true.
Proof.
  induction names as [|m names IH]; cbn [check_names]; intros H n Hin;
    [contradiction|].
  bind_inv H as u Hu. destruct Hin as [<-|Hin]; [|apply IH; assumption].
  unfold check_name in Hu. destruct (identifier_chars m); [reflexivity|].
  discriminate.
Qed.

Lemma lookup_Some_in_keys {A : Type} k (v : A) d :
  lookup k d = Some v -> In k (keys d).
Proof.
  unfold keys. induction d as [|[k' v'] d IH]; cbn [lookup map fst In];
    [discriminate|].
  destruct (String.eqb_spec k k') as [->|Hne]; [left; reflexivity|].
  intros H. right. apply IH, H.
Qed.

(** A record made by [GetNamedTuple] has no attribute whose name is not an
    identifier. *)
Lemma GetNamedTuple_identifier_fields items r name :
  GetNamedTuple (VDict items) = Ok r ->
  identifier_chars name = false ->
  getattr r name = Raise AttributeError.
Proof.
  intros H Hname. rewrite GetNamedTuple_dict in H. bind_inv H as fields Hf.
  apply namedtuple_Ok in H. destruct H as [-> Hnames].
  cbn [getattr]. destruct (lookup name fields) as [x|] eqn:E; [|reflexivity].
  apply lookup_Some_in_keys in E.
  rewrite (check_names_Ok _ Hnames _ E) in Hname. discriminate.
Qed.

Lemma check_fields_NoDup names : forall seen,
  NoDup names ->
  (forall n, In n names -> ~ In n seen) ->
  (forall n, In n names -> startswith "_" n = false) ->
  check_fields seen names = Ok tt.
Proof.
  induction names as [|m names IH]; intros seen Hnd Hseen Hus; [reflexivity|].
  cbn [check_fields]. rewrite (Hus m (or_introl eq_refl)).
  destruct (existsb (String.eqb m) seen) eqn:E.
  - apply existsb_exists in E. destruct E as (x & Hx & Heq).
    apply String.eqb_eq in Heq. subst x.
    exfalso. apply (Hseen m); [left; reflexivity | exact Hx].
  - inversion Hnd as [|? ? Hnin Hnd']; subst. apply IH; [exact Hnd'| |].
    + intros n Hn [<-|Hin]; [contradiction|].
      apply (Hseen n); [right; exact Hn | exact Hin].
    + intros n Hn. apply Hus. right; exact Hn.
Qed.

(** The repeated-name test of [namedtuple] never fires on the names that the
    loop of [GetNamedTuple] leaves: whether the conversion of the mapping
    itself succeeds is decided by the rewritten names one by one. *)
Lemma GetNamedTuple_collision_silent items fields :
  convert_items items [] = Ok fields ->
  forallb is_ascii (keys fields) = true ->
  check_names (keys fields) = Ok tt ->
  (forall n, In n (keys fields) -> startswith "_" n = false) ->
  existsb (String.eqb "None") (keys fields) = false ->
  (List.length fields < 255)%nat ->
  GetNamedTuple (VDict items) = Ok (VTuple fields).
Proof.
  intros Hitems Hascii Hnames Hus Hnone Hlen.
  rewrite GetNamedTuple_dict, Hitems. cbn [bind]. unfold namedtuple.
  rewrite Hascii, Hnames. cbn [negb bind].
  rewrite (check_fields_NoDup (keys fields) []).
  - cbn [bind]. rewrite Hnone. cbn [orb].
    unfold keys. rewrite length_map.
    apply Nat.leb_gt in Hlen. rewrite Hlen. reflexivity.
  - destruct (convert_items_keys _ _ _ Hitems) as [Hnd _].
    apply Hnd. constructor.
  - intros n _ [].
  - exact Hus.
Qed.

Lemma NoDup_map_injective {A B : Type} (f : A -> B) l a b :
  NoDup (map f l) -> In a l -> In b l -> f a = f b -> a = b.
Proof.
  induction l as [|x l IH]; simpl; intros Hnd Ha Hb Hf; [contradiction|].
  inversion Hnd as [|? ? Hnin Hnd']; subst.
  destruct Ha as [->|Ha], Hb as [->|Hb]; auto.
  - exfalso; apply Hnin. rewrite Hf. apply in_map; assumption.
  - exfalso; apply Hnin. rewrite <- Hf. apply in_map; assumption.
Qed.

(** C10. [GetNamedTuple] rewrites every key of a mapping, turning each hyphen
    and each at-sign into an underscore, and the fields of the record are the
    rewritten keys.  When two different keys of the mapping are rewritten to
    the same name, the conversion still succeeds with a record that has one
    field of that name (so fewer fields than the mapping has keys); the field
    holds the converted value of the last key visited among those rewritten
    to the name, and the values of the others are gone. *)
Theorem GetNamedTuple_key_collision :
  forall items r k1 v1 k2 v2,
    GetNamedTuple (VDict items) = Ok r ->
    In (k1, v1) items -> In (k2, v2) items -> k1 <> k2 ->
    field_name k1 = field_name k2 ->
    (forall k, field_name k = map_string field_char k) /\
    exists fields,
      r = VTuple fields /\
      (forall n, In n (keys fields) <->
                 exists k, In k (keys items) /\ field_name k = n) /\
      NoDup (keys fields) /\
      (List.length fields < List.length items)%nat /\
      exists pre k v post x,
        items = (pre ++ (k, v) :: post)%list /\
        field_name k = field_name k1 /\
        (forall k', In k' (keys post) -> field_name k' <> field_name k1) /\
        convert_value v = Ok x /\
        getattr r (field_name k1) = Ok x.
Proof.
  intros items r k1 v1 k2 v2 H H1 H2 Hne Hcol.
  split; [exact field_name_chars|].
  rewrite GetNamedTuple_dict in H. bind_inv H.
  apply namedtuple_Ok in H. destruct H as [-> _].
  rename a into fields. exists fields.
  destruct (convert_items_keys _ _ _ Ha) as [Hnd Hin].
  assert (Hnd' : NoDup (keys fields)) by (apply Hnd; constructor).
  assert (Hkeys : forall n, In n (keys fields) <->
                            exists k, In k (keys items) /\ field_name k = n).
  { intros n. rewrite Hin. cbn [keys map In]. tauto. }
  repeat split; try assumption; try (apply Hkeys; assumption).
  - destruct (Nat.lt_ge_cases (List.length fields) (List.length items))
      as [Hlt|Hge]; [exact Hlt|exfalso].
    assert (Hincl : incl (keys fields) (map field_name (keys items))).
    { intros n Hn. apply Hkeys in Hn. destruct Hn as (k & Hk & <-).
      apply in_map; assumption. }
    assert (Hlen : (List.length (map field_name (keys items))
                    <= List.length (keys fields))%nat).
    { unfold keys. rewrite !length_map. exact Hge. }
    pose proof (NoDup_incl_NoDup Hnd' Hlen Hincl) as Hnd2.
    apply Hne.
    apply (NoDup_map_injective field_name (keys items)); auto;
      unfold keys; [apply (in_map fst _ _ H1) | apply (in_map fst _ _ H2)].
  - destruct (convert_items_lookup _ _ _ (field_name k1) Ha)
      as [(pre & k & v & post & x & E & Hk & Hpost & Hx & Hl) | [Hnone _]].
    + exists pre, k, v, post, x. repeat split; auto.
      cbn [getattr]. rewrite Hl. reflexivity.
    + exfalso. apply (Hnone k1); [|reflexivity].
      unfold keys. apply (in_map fst _ _ H1).
Qed.

Lemma GetNamedTuple_key_collision_witness :
  GetNamedTuple (VDict [("a-b", VInt 1); ("a@b", VInt 2)])
  = Ok (VTuple [("a_b", VInt 2)])
  /\ exists fields,
      VTuple [("a_b", VInt 2)] = VTuple fields /\
      (List.length fields < 2)%nat.
Proof.
  split; [reflexivity|].
  destruct (GetNamedTuple_key_collision
              [("a-b", VInt 1); ("a@b", VInt 2)] (VTuple [("a_b", VInt 2)])
              "a-b" (VInt 1) "a@b" (VInt 2))
    as [_ (fields & E & _ & _ & Hlen & _)].
  - reflexivity.
  - left; reflexivity.
  - right; left; reflexivity.
  - discriminate.
  - reflexivity.
  - exists fields. split; [exact E | exact Hlen].
Defined.

(** ** The audio manifest *)

Lemma append_nil_r s : s ++ EmptyString = s.
Proof. induction s; cbn [append]; congruence. Qed.

Section Derivation.
Variable container_str : value -> string.

Lemma GetNamedTuple_model_with_audio name firmware main nt :
  GetNamedTuple (model_with_audio name firmware main) = Ok nt ->
  exists name' firmware' main',
    convert_value name = Ok name' /\
    convert_value firmware = Ok firmware' /\
    GetNamedTuple (VDict main) = Ok main' /\
    nt = VTuple [ ("name", name');
                  ("audio", VTuple [("main", main')]);
                  ("firmware", firmware') ].
Proof.
  unfold model_with_audio. rewrite GetNamedTuple_dict.
  cbn [convert_items]. intros H.
  bind_inv H as fields Hfields. bind_inv Hfields as name' Hname.
  cbn [convert_value] in Hfields.
  rewrite (GetNamedTuple_dict [("main", VDict main)]) in Hfields.
  cbn [convert_items convert_value] in Hfields.
  bind_inv Hfields as audio Haudio. bind_inv Haudio as afields Hafields.
  bind_inv Hafields as main' Hmain. injection Hafields as <-.
  vm_compute in Haudio. injection Haudio as <-.
  bind_inv Hfields as firmware' Hfirmware. injection Hfields as <-.
  vm_compute in H. injection H as <-.
  exists name', firmware', main'. auto.
Qed.

Lemma GetNamedTuple_model_main name firmware main main' :
  GetNamedTuple (VDict main) = Ok main' ->
  GetNamedTuple (model_with_audio name firmware main)
  = (name' <- convert_value name ;;
     firmware' <- convert_value firmware ;;
     Ok (VTuple [ ("name", name'); ("audio", VTuple [("main", main')]);
                  ("firmware", firmware') ])).
Proof.
  intros Hm. unfold model_with_audio.
  rewrite GetNamedTuple_dict. cbn [convert_items].
  destruct (convert_value name) as [name'|]; cbn [bind]; [|reflexivity].
  cbn [convert_value].
  rewrite (GetNamedTuple_dict [("main", VDict main)]).
  cbn [convert_items convert_value]. rewrite Hm. cbn [bind].
  change (namedtuple (dict_set (field_name "main") main' []))
    with (Ok (VTuple [("main", main')])).
  cbn [bind].
  destruct (convert_value firmware) as [firmware'|]; reflexivity.
Qed.

Lemma audio_manifest_bay :
  audio_manifest EmptyString "bay" "bay" = bay_manifest.
Proof. reflexivity. Qed.

(** With the subdirectory field present and empty, and neither a suffix nor a
    firmware binary, the manifest of the card [bay] is the four entries. *)
Lemma GetAudioFiles_bay_empty_subdir name firmware subdir nt :
  GetNamedTuple
    (model_with_audio name firmware
       [("card", VStr "bay"); ("cras-config-subdir", subdir)]) = Ok nt ->
  subdir = VNone \/ subdir = VStr EmptyString ->
  _GetAudioFiles container_str
    (model_with_audio name firmware
       [("card", VStr "bay"); ("cras-config-subdir", subdir)])
  = Ok bay_manifest.
Proof.
  intros H Hsub. unfold _GetAudioFiles. rewrite H. cbn [bind].
  apply GetNamedTuple_model_with_audio in H.
  destruct H as (name' & firmware' & main' & _ & _ & Hmain & ->).
  destruct Hsub as [-> | ->]; vm_compute in Hmain; injection Hmain as <-;
    reflexivity.
Qed.

(** C1. The model whose audio descriptor holds the card [bay] and nothing
    else: [_GetAudioFiles] reads the attribute [cras_config_subdir] of the
    record, which is not there, and raises [AttributeError]; no manifest is
    built, whatever the name and the firmware descriptor of the model. *)
Theorem GetAudioFiles_bay_subdir_absent :
  forall name firmware,
    exists e,
      _GetAudioFiles container_str
        (model_with_audio name firmware [("card", VStr "bay")]) = Raise e.
Proof.
  intros name firmware. unfold _GetAudioFiles.
  destruct (GetNamedTuple (model_with_audio name firmware [("card", VStr "bay")]))
    as [nt|e] eqn:H; cbn [bind]; [|eauto].
  apply GetNamedTuple_model_with_audio in H.
  destruct H as (name' & firmware' & main' & _ & _ & Hmain & ->).
  vm_compute in Hmain. injection Hmain as <-.
  exists AttributeError. reflexivity.
Qed.

(** Whatever the audio descriptor says about a UCM suffix, the UCM entries
    of a manifest that [_GetAudioFiles] returns are under the directory named
    after the card alone. *)
Lemma GetAudioFiles_ucm_directory name firmware main files :
  _GetAudioFiles container_str (model_with_audio name firmware main)
  = Ok files ->
  exists main' card subdir_path,
    GetNamedTuple (VDict main) = Ok main'
    /\ getattr main' "card" = Ok card
    /\ firstn 4 files
       = audio_manifest subdir_path (py_str container_str card)
           (py_str container_str card).
Proof.
  intros H. unfold _GetAudioFiles in H. bind_inv H as nt Hnt.
  apply GetNamedTuple_model_with_audio in Hnt.
  destruct Hnt as (name' & firmware' & main' & _ & _ & Hmain & ->).
  change (getattr (VTuple [("name", name');
                           ("audio", VTuple [("main", main')]);
                           ("firmware", firmware')]) "audio")
    with (Ok (VTuple [("main", main')])) in H.
  cbn [bind] in H.
  change (getattr (VTuple [("main", main')]) "main") with (Ok main') in H.
  cbn [bind] in H.
  bind_inv H as card Hcard. bind_inv H as subdir Hsubdir.
  bind_inv H as subdir_path Hpath.
  unfold getattr_default at 1 in H.
  rewrite (GetNamedTuple_identifier_fields main main' "ucm-suffix" Hmain eq_refl)
    in H.
  cbn [truthy bind _AddAudioFile os_path_join app] in H.
  rewrite append_nil_r in H.
  exists main', card, subdir_path. split; [exact Hmain|]. split; [exact Hcard|].
  destruct (truthy (getattr_default main' "firmware_bin" VNone)).
  - bind_inv H as firmware_bin Hbin. unfold _AddAudioFile in H.
    bind_inv H as s Hs. bind_inv H as d Hd. injection H as <-. reflexivity.
  - injection H as <-. reflexivity.
Qed.

(** C2. A model with card [C], an empty subdirectory and the UCM suffix [S]:
    the manifest is built from the card alone.  [_GetAudioFiles] asks the
    record for the attribute [ucm-suffix], while [GetNamedTuple] has stored
    the field as [ucm_suffix]; the UCM entries are under the directory [C]
    and the second file is [C.conf], as if there were no suffix. *)
Theorem GetAudioFiles_ucm_suffix_ignored :
  forall name firmware C S,
    _GetAudioFiles container_str
      (model_with_audio name firmware
         [ ("card", VStr C); ("cras-config-subdir", VStr EmptyString);
           ("ucm-suffix", VStr S) ])
    = _GetAudioFiles container_str
        (model_with_audio name firmware
           [ ("card", VStr C); ("cras-config-subdir", VStr EmptyString) ])
    /\ forall files,
        _GetAudioFiles container_str
          (model_with_audio name firmware
             [ ("card", VStr C); ("cras-config-subdir", VStr EmptyString);
               ("ucm-suffix", VStr S) ]) = Ok files ->
        files = audio_manifest EmptyString C C.
Proof.
  intros name firmware C S.
  unfold _GetAudioFiles.
  rewrite (GetNamedTuple_model_main name firmware
             [ ("card", VStr C); ("cras-config-subdir", VStr EmptyString);
               ("ucm-suffix", VStr S) ]
             (VTuple [ ("card", VStr C);
                       ("cras_config_subdir", VStr EmptyString);
                       ("ucm_suffix", VStr S) ]) eq_refl).
  rewrite (GetNamedTuple_model_main name firmware
             [ ("card", VStr C); ("cras-config-subdir", VStr EmptyString) ]
             (VTuple [ ("card", VStr C);
                       ("cras_config_subdir", VStr EmptyString) ]) eq_refl).
  destruct (convert_value name) as [name'|]; cbn [bind];
    [|split; [reflexivity | discriminate]].
  destruct (convert_value firmware) as [firmware'|]; cbn [bind];
    [|split; [reflexivity | discriminate]].
  split; [reflexivity|].
  intros files H. injection H as <-.
  cbn [py_str]. rewrite !append_nil_r. reflexivity.
Qed.

(** C6. The subdirectory name is one of the optional fields of the audio
    descriptor, and [TransformConfig] reads it with a default; yet a model
    whose descriptor has no key for it gets no manifest from
    [_GetAudioFiles], which reads the attribute without a default: the call
    ends in an exception. *)
Theorem GetAudioFiles_subdir_omitted :
  forall name firmware main,
    (forall k, In k (keys main) -> field_name k <> "cras_config_subdir") ->
    exists e,
      _GetAudioFiles container_str (model_with_audio name firmware main)
      = Raise e.
Proof.
  intros name firmware main Hmain. unfold _GetAudioFiles.
  destruct (GetNamedTuple (model_with_audio name firmware main))
    as [nt|e] eqn:H; cbn [bind]; [|eauto].
  apply GetNamedTuple_model_with_audio in H.
  destruct H as (name' & firmware' & main' & _ & _ & Hm & ->).
  rewrite GetNamedTuple_dict in Hm. bind_inv Hm as fields Hfields.
  apply namedtuple_Ok in Hm. destruct Hm as [-> _].
  change (getattr (VTuple [("name", name');
                           ("audio", VTuple [("main", VTuple fields)]);
                           ("firmware", firmware')]) "audio")
    with (Ok (VTuple [("main", VTuple fields)])).
  cbn [bind].
  change (getattr (VTuple [("main", VTuple fields)]) "main")
    with (Ok (VTuple fields)).
  cbn [bind].
  destruct (getattr (VTuple fields) "card") as [card|e]; cbn [bind]; [|eauto].
  destruct (convert_items_lookup _ _ _ "cras_config_subdir" Hfields)
    as [(pre & k & v & post & x & -> & Hk & _) | [_ Hl]].
  - exfalso. apply (Hmain k); [|exact Hk].
    unfold keys. rewrite map_app, in_app_iff. right; left; reflexivity.
  - cbn [getattr]. rewrite Hl. cbn [lookup bind]. eauto.
Qed.

End Derivation.

Lemma GetAudioFiles_subdir_omitted_witness :
  exists e,
    _GetAudioFiles (fun _ => EmptyString)
      (model_with_audio (VStr "pyro") (VDict [])
         [("card", VStr "bxtda7219max"); ("firmware-bin", VStr "dfw_sst.bin")])
    = Raise e.
Proof.
  apply GetAudioFiles_subdir_omitted.
  intros k [<-|[<-|[]]]; vm_compute; discriminate.
Defined.

(** ** Firmware URIs *)

Lemma prefix_nil s : prefix EmptyString s = true.
Proof. destruct s; reflexivity. Qed.

Lemma prefix_app p s : prefix p (p ++ s) = true.
Proof.
  induction p as [|c p IH]; cbn [append prefix]; [apply prefix_nil|].
  destruct (ascii_dec c c); [exact IH | congruence].
Qed.

Lemma occurrences_app_pos p a s :
  prefix p s = true -> (0 < occurrences p (a ++ s))%nat.
Proof.
  intros H. induction a as [|c a IH]; cbn [append].
  - destruct s; cbn [occurrences]; rewrite H; lia.
  - cbn [occurrences]. lia.
Qed.

Lemma contains_app p a b : contains p (a ++ p ++ b) = true.
Proof.
  unfold contains. apply Nat.ltb_lt, occurrences_app_pos, prefix_app.
Qed.

Lemma contains_app_l p a s : contains p s = true -> contains p (a ++ s) = true.
Proof.
  unfold contains. rewrite !Nat.ltb_lt. intros H.
  induction a as [|c a IH]; cbn [append occurrences]; lia.
Qed.

Lemma append_assoc (a b c : string) : (a ++ b) ++ c = a ++ b ++ c.
Proof. induction a; cbn [append]; congruence. Qed.

Lemma replace_from_absent old new s :
  contains old s = false -> replace_from old new 0 s = s.
Proof.
  unfold contains. rewrite Nat.ltb_ge.
  induction s as [|c s IH]; [reflexivity|].
  cbn [occurrences replace_from]. intros H.
  destruct (prefix old (String c s)); [lia|].
  rewrite IH; [reflexivity | lia].
Qed.

Lemma replace_from_skip old new p s :
  replace_from old new (String.length p) (p ++ s) = replace_from old new 0 s.
Proof.
  induction p as [|c p IH]; [reflexivity|].
  cbn [String.length append replace_from]. exact IH.
Qed.

Lemma str_replace_prefix c old new s :
  str_replace (String c old) new (String c old ++ s)
  = new ++ str_replace (String c old) new s.
Proof.
  unfold str_replace.
  change (String c old ++ s) with (String c (old ++ s)).
  cbn [replace_from].
  change (String c (old ++ s)) with (String c old ++ s).
  rewrite prefix_app.
  cbn [String.length]. rewrite Nat.sub_succ, Nat.sub_0_r.
  rewrite replace_from_skip. reflexivity.
Qed.

(** Removing [overlay-] from [overlay-X] removes it from [X] as well. *)
Lemma replace_overlay_prefix X :
  str_replace "overlay-" EmptyString ("overlay-" ++ X)
  = str_replace "overlay-" EmptyString X.
Proof. apply (str_replace_prefix "o" "verlay-" EmptyString X). Qed.

Section Firmware.
Variable container_str : value -> string.

(** [_GetFirmwareUris] up to the test of the overlay. *)
Lemma GetFirmwareUris_start model nt fields :
  GetNamedTuple model = Ok nt ->
  getattr nt "firmware" = Ok (VTuple fields) ->
  _GetFirmwareUris container_str model
  = (bcs <- getattr (VTuple fields) "bcs_overlay" ;;
     if negb (truthy bcs) then Ok []
     else
       bcs_overlay <- call_replace bcs "overlay-" EmptyString ;;
       build_targets <- getattr (VTuple fields) "build_targets" ;;
       base_model <- getattr build_targets "coreboot" ;;
       for_each
         (fun fname =>
            _ <- getattr nt "name" ;;
            b <- format_field container_str (VStr bcs_overlay) ;;
            m <- format_field container_str base_model ;;
            f <- format_field container_str fname ;;
            Ok (VStr (uri_format b m f)))
         (valid_images fields)).
Proof.
  intros H Hfw. unfold _GetFirmwareUris. rewrite H. cbn [bind].
  rewrite Hfw. reflexivity.
Qed.

(** With the overlay field present and empty the list is empty. *)
Lemma GetFirmwareUris_overlay_empty model nt fields bcs :
  GetNamedTuple model = Ok nt ->
  getattr nt "firmware" = Ok (VTuple fields) ->
  lookup "bcs_overlay" fields = Some bcs ->
  truthy bcs = false ->
  _GetFirmwareUris container_str model = Ok [].
Proof.
  intros H Hfw Hl Ht. rewrite (GetFirmwareUris_start _ _ _ H Hfw).
  cbn [getattr]. rewrite Hl. cbn [bind]. rewrite Ht. reflexivity.
Qed.

(** C3. A model whose firmware descriptor has no overlay field gets no URI
    list, empty or not: [getattr] is called without a default and raises
    [AttributeError]. *)
Theorem GetFirmwareUris_overlay_absent :
  forall model nt fields,
    GetNamedTuple model = Ok nt ->
    getattr nt "firmware" = Ok (VTuple fields) ->
    lookup "bcs_overlay" fields = None ->
    _GetFirmwareUris container_str model = Raise AttributeError.
Proof.
  intros model nt fields H Hfw Hl. rewrite (GetFirmwareUris_start _ _ _ H Hfw).
  cbn [getattr]. rewrite Hl. reflexivity.
Qed.

(** C4 (amended). With an overlay identifier and no [coreboot] among the
    build targets (or no build targets at all), the derivation stops at the
    attribute lookup: it raises the interpreter's [AttributeError] and
    returns no list. *)
Theorem GetFirmwareUris_coreboot_missing :
  forall model nt fields overlay,
    GetNamedTuple model = Ok nt ->
    getattr nt "firmware" = Ok (VTuple fields) ->
    lookup "bcs_overlay" fields = Some (VStr overlay) ->
    overlay <> EmptyString ->
    (forall targets, lookup "build_targets" fields = Some targets ->
                     getattr targets "coreboot" = Raise AttributeError) ->
    _GetFirmwareUris container_str model = Raise AttributeError
    /\ exn_name AttributeError <> "DerivationError".
Proof.
  intros model nt fields overlay H Hfw Hl Hne Hbt.
  split; [|discriminate].
  rewrite (GetFirmwareUris_start _ _ _ H Hfw).
  cbn [getattr]. rewrite Hl. cbn [bind truthy].
  apply String.eqb_neq in Hne. rewrite Hne. cbn [negb call_replace bind].
  destruct (lookup "build_targets" fields) as [targets|] eqn:E; cbn [bind];
    [|reflexivity].
  fold (getattr targets "coreboot"). rewrite (Hbt _ eq_refl). reflexivity.
Qed.

(** The three marks of the template in a URI. *)
Lemma uri_format_contains bcs base_model fname :
  contains ("bcs-" ++ bcs) (uri_format bcs base_model fname) = true
  /\ contains ("overlay-" ++ bcs) (uri_format bcs base_model fname) = true
  /\ contains ("chromeos-firmware-" ++ base_model)
       (uri_format bcs base_model fname) = true.
Proof.
  unfold uri_format. repeat split.
  - apply (contains_app ("bcs-" ++ bcs) "gs://chromeos-binaries/HOME/").
  - apply (contains_app_l _ "gs://chromeos-binaries/HOME/bcs-").
    apply contains_app_l.
    apply (contains_app ("overlay-" ++ bcs) "/").
  - apply (contains_app_l _ "gs://chromeos-binaries/HOME/bcs-").
    apply contains_app_l.
    apply (contains_app_l _ "/overlay-").
    apply contains_app_l.
    apply (contains_app ("chromeos-firmware-" ++ base_model) "/chromeos-base/").
Qed.

(** C5 (amended). For a model with the overlay [overlay-X] and the coreboot
    target [Y], whenever the derivation returns a list, it holds one URI per
    image, each the template filled with [bcs], [Y] and the text of the image,
    where [bcs] is [X] without any occurrence of [overlay-] ([X] itself when
    it has none).  So the overlay name is put in twice, once after [bcs-] and
    once after [overlay-], and [chromeos-firmware-Y] follows. *)
Theorem GetFirmwareUris_template :
  forall model nt fields X Y targets uris,
    GetNamedTuple model = Ok nt ->
    getattr nt "firmware" = Ok (VTuple fields) ->
    lookup "bcs_overlay" fields = Some (VStr ("overlay-" ++ X)) ->
    lookup "build_targets" fields = Some targets ->
    getattr targets "coreboot" = Ok (VStr Y) ->
    _GetFirmwareUris container_str model = Ok uris ->
    let bcs := str_replace "overlay-" EmptyString X in
    (contains "overlay-" X = false -> bcs = X)
    /\ Forall2
         (fun image uri =>
            exists fname,
              format_field container_str image = Ok fname
              /\ uri = VStr (uri_format bcs Y fname))
         (valid_images fields) uris
    /\ Forall
         (fun uri =>
            exists u,
              uri = VStr u
              /\ contains ("bcs-" ++ bcs) u = true
              /\ contains ("overlay-" ++ bcs) u = true
              /\ contains ("chromeos-firmware-" ++ Y) u = true)
         uris.
Proof.
  intros model nt fields X Y targets uris H Hfw Hl Hbt Hcb Huris bcs.
  split; [intros Habs; apply replace_from_absent; exact Habs|].
  rewrite (GetFirmwareUris_start _ _ _ H Hfw) in Huris.
  cbn [getattr] in Huris. rewrite Hl, Hbt in Huris.
  cbn [bind append truthy String.eqb negb call_replace] in Huris.
  change (String "o" (String "v" (String "e" (String "r" (String "l"
           (String "a" (String "y" (String "-" X))))))))
    with ("overlay-" ++ X) in Huris.
  rewrite replace_overlay_prefix in Huris. fold bcs in Huris.
  fold (getattr targets "coreboot") in Huris. rewrite Hcb in Huris.
  cbn [bind] in Huris.
  apply for_each_Ok_Forall2 in Huris.
  assert (Hall : Forall2
    (fun image uri =>
       exists fname,
         format_field container_str image = Ok fname
         /\ uri = VStr (uri_format bcs Y fname))
    (valid_images fields) uris).
  { induction Huris as [|image uri images uris Hone _ IH]; constructor;
      [|exact IH].
    bind_inv Hone as name Hname. bind_inv Hone as b Hb.
    bind_inv Hone as m Hm. bind_inv Hone as f Hf.
    cbn [format_field] in Hb, Hm.
    destruct (is_ascii bcs); [|discriminate].
    destruct (is_ascii Y); [|discriminate].
    injection Hb as <-. injection Hm as <-. injection Hone as <-.
    exists f. auto. }
  split; [exact Hall|].
  clear Huris. induction Hall as [|image uri images uris Hone _ IH];
    constructor; [|exact IH].
  destruct Hone as (fname & _ & ->).
  exists (uri_format bcs Y fname). split; [reflexivity|].
  apply uri_format_contains.
Qed.

End Firmware.

Lemma GetFirmwareUris_overlay_absent_witness :
  _GetFirmwareUris no_container_str reef_no_overlay = Raise AttributeError.
Proof.
  eapply GetFirmwareUris_overlay_absent; reflexivity.
Defined.

Lemma GetFirmwareUris_coreboot_missing_witness :
  _GetFirmwareUris no_container_str reef_no_coreboot = Raise AttributeError
  /\ exn_name AttributeError <> "DerivationError".
Proof.
  eapply GetFirmwareUris_coreboot_missing; try reflexivity.
  - discriminate.
  - intros targets H. vm_compute in H. injection H as <-. reflexivity.
Defined.

Lemma GetFirmwareUris_raises_AttributeError :
  exists e,
    _GetFirmwareUris no_container_str reef_no_coreboot = Raise e
    /\ exn_name e <> "DerivationError".
Proof. exists AttributeError. split; [reflexivity | discriminate]. Qed.

Lemma GetFirmwareUris_template_witness :
  _GetFirmwareUris no_container_str reef
  = Ok [ VStr (uri_format "reef-private" "reef" "Reef.9042.87.1.tbz2");
         VStr (uri_format "reef-private" "reef" "Reef_EC.9042.87.1.tbz2") ]
  /\ Forall
       (fun uri =>
          exists u,
            uri = VStr u
            /\ contains "bcs-reef-private" u = true
            /\ contains "overlay-reef-private" u = true
            /\ contains "chromeos-firmware-reef" u = true)
       [ VStr (uri_format "reef-private" "reef" "Reef.9042.87.1.tbz2");
         VStr (uri_format "reef-private" "reef" "Reef_EC.9042.87.1.tbz2") ].
Proof.
  split; [reflexivity|].
  eapply (GetFirmwareUris_template no_container_str reef _ _
            "reef-private" "reef"); reflexivity.
Defined.

Lemma GetFirmwareUris_bcs_once :
  exists uris u,
    _GetFirmwareUris no_container_str reef = Ok uris
    /\ In (VStr u) uris
    /\ occurrences "bcs-reef-private" u = 1.
Proof.
  eexists. eexists. split; [reflexivity|].
  split; [left; reflexivity | reflexivity].
Qed.

(** ** ValidateConfig *)

Section Nodup_length.
Context {A : Type} (dec : forall x y : A, {x = y} + {x <> y}).

Lemma nodup_length_le (l : list A) :
  (List.length (nodup dec l) <= List.length l)%nat.
Proof.
  induction l as [|a l IH]; cbn [nodup List.length]; [lia|].
  destruct (in_dec dec a l); cbn [List.length]; lia.
Qed.

Lemma nodup_length_eq (l : list A) :
  List.length (nodup dec l) = List.length l <-> NoDup l.
Proof.
  split.
  - induction l as [|a l IH]; cbn [nodup List.length]; [constructor|].
    destruct (in_dec dec a l) as [Hin|Hnin]; cbn [List.length]; intros H.
    + pose proof (nodup_length_le l). lia.
    + constructor; [exact Hnin | apply IH; lia].
  - intros H. rewrite (nodup_fixed_point dec H). reflexivity.
Qed.

Lemma not_NoDup_count_occ (l : list A) :
  ~ NoDup l <-> exists x, (2 <= count_occ dec l x)%nat.
Proof.
  split.
  - induction l as [|a l IH]; intros H; [exfalso; apply H; constructor|].
    destruct (in_dec dec a l) as [Hin|Hnin].
    + exists a. cbn [count_occ]. destruct (dec a a); [|congruence].
      apply (count_occ_In dec) in Hin. lia.
    + destruct IH as (x & Hx).
      * intros Hnd. apply H. constructor; assumption.
      * exists x. cbn [count_occ]. destruct (dec a x); lia.
  - intros (x & Hx) Hnd. rewrite (NoDup_count_occ dec) in Hnd.
    specialize (Hnd x). lia.
Qed.
End Nodup_length.

Lemma NoDup_map_VStr names : NoDup (map VStr names) <-> NoDup names.
Proof.
  split; [apply NoDup_map_inv|].
  induction 1 as [|n names Hnin _ IH]; cbn [map]; constructor; [|exact IH].
  rewrite in_map_iff. intros (n' & E & Hin). injection E as ->. contradiction.
Qed.

(** The outcome of [ValidateConfig] on a document whose models carry the
    names [names]. *)
Lemma ValidateConfig_names doc models names :
  getitem doc "models" = Ok (VList models) ->
  Forall2 (fun model name => getitem model "name" = Ok (VStr name))
          models names ->
  ValidateConfig doc
  = if ListDec.NoDup_dec string_dec names then Ok tt
    else Raise (ValidationError (map VStr names)).
Proof.
  intros Hdoc Hnames. unfold ValidateConfig. rewrite Hdoc. cbn [bind iterate].
  assert (H1 : for_each (fun model => getitem model "name") models
               = Ok (map VStr names)).
  { apply Forall2_for_each_Ok. clear Hdoc.
    induction Hnames; cbn [map]; constructor; auto. }
  rewrite H1. cbn [bind]. unfold len_set.
  assert (H2 : for_each hash_key (map VStr names) = Ok (map VStr names)).
  { clear. induction names as [|n names IH]; [reflexivity|].
    cbn [map for_each hash_key bind]. rewrite IH. reflexivity. }
  rewrite H2. cbn [bind].
  destruct (ListDec.NoDup_dec string_dec names) as [Hnd|Hnd].
  - apply NoDup_map_VStr in Hnd.
    apply (nodup_length_eq value_eq_dec) in Hnd.
    rewrite Hnd, Nat.eqb_refl. reflexivity.
  - destruct (Nat.eqb_spec (List.length (map VStr names))
                (List.length (nodup value_eq_dec (map VStr names))))
      as [E|E]; [|reflexivity].
    exfalso. apply Hnd. apply NoDup_map_VStr.
    apply (nodup_length_eq value_eq_dec). symmetry; exact E.
Qed.

(** C7. On a document whose models are mappings with a string under [name],
    [ValidateConfig] raises [ValidationError] exactly when some name occurs
    twice or more, and returns otherwise; the error carries the list of the
    names of the models, so every repeated name is in it. *)
Theorem ValidateConfig_unique_names :
  forall doc models names,
    getitem doc "models" = Ok (VList models) ->
    Forall2 (fun model name => getitem model "name" = Ok (VStr name))
            models names ->
    ((exists n, (2 <= count_occ string_dec names n)%nat)
     <-> ValidateConfig doc = Raise (ValidationError (map VStr names)))
    /\ ((exists e, ValidateConfig doc = Raise e)
        <-> exists n, (2 <= count_occ string_dec names n)%nat)
    /\ (forall n, (2 <= count_occ string_dec names n)%nat ->
                  In (VStr n) (map VStr names)).
Proof.
  intros doc models names Hdoc Hnames.
  rewrite (ValidateConfig_names _ _ _ Hdoc Hnames).
  rewrite <- (not_NoDup_count_occ string_dec).
  split; [|split].
  - destruct (ListDec.NoDup_dec string_dec names) as [Hnd|Hnd].
    + split; [intros H; contradiction | discriminate].
    + split; [reflexivity | intros _; exact Hnd].
  - destruct (ListDec.NoDup_dec string_dec names) as [Hnd|Hnd].
    + split; [intros (e & He); discriminate | intros H; contradiction].
    + split; [intros _; exact Hnd | eauto].
  - intros n Hn. apply in_map. apply (count_occ_In string_dec). lia.
Qed.

Lemma ValidateConfig_unique_names_witness :
  ValidateConfig (VDict [("models", VList [reef; reef])])
  = Raise (ValidationError [VStr "reef"; VStr "reef"])
  /\ In (VStr "reef") [VStr "reef"; VStr "reef"].
Proof.
  destruct (ValidateConfig_unique_names
              (VDict [("models", VList [reef; reef])]) [reef; reef]
              ["reef"; "reef"] eq_refl) as (H1 & _ & H2).
  - repeat constructor.
  - split.
    + apply H1. exists "reef". vm_compute. lia.
    + apply (H2 "reef"). vm_compute. lia.
Defined.

(** ** The filter *)

Lemma FilterBuildElements_dict items path :
  _FilterBuildElements (VDict items) path = VDict (filter_items path items).
Proof.
  cbn [_FilterBuildElements]. f_equal.
  induction items as [|[key v] rest IH]; [reflexivity|].
  cbn [filter_items]. rewrite IH.
  destruct (in_build_only (path ++ "/" ++ key)); [reflexivity|].
  destruct v; reflexivity.
Qed.

Lemma lookup_filter_items path items k :
  lookup k (filter_items path items)
  = if in_build_only (path ++ "/" ++ k) then None
    else option_map (fun v => _FilterBuildElements v (path ++ "/" ++ k))
                    (lookup k items).
Proof.
  induction items as [|[key v] rest IH]; cbn [filter_items lookup].
  - destruct (in_build_only _); reflexivity.
  - destruct (String.eqb_spec k key) as [->|Hne].
    + destruct (in_build_only (path ++ "/" ++ key)) eqn:E; [exact IH|].
      cbn [lookup]. rewrite String.eqb_refl. reflexivity.
    + destruct (in_build_only (path ++ "/" ++ key)) eqn:E; [exact IH|].
      cbn [lookup]. apply String.eqb_neq in Hne. rewrite Hne. exact IH.
Qed.

Lemma prefix_app_l a c b : prefix (a ++ c) b = true -> prefix a b = true.
Proof.
  revert b; induction a as [|x a IH]; intros b; [intros _; apply prefix_nil|].
  cbn [append]. destruct b as [|y b]; cbn [prefix]; [discriminate|].
  destruct (ascii_dec x y); [apply IH | discriminate].
Qed.

Lemma nothing_below_key path key :
  nothing_below path = true ->
  in_build_only (path ++ "/" ++ key) = false
  /\ nothing_below (path ++ "/" ++ key) = true.
Proof.
  unfold nothing_below, in_build_only. rewrite !forallb_forall. intros H.
  split.
  - destruct (existsb _ BUILD_ONLY_ELEMENTS) eqn:E; [|reflexivity].
    apply existsb_exists in E. destruct E as (b & Hb & Heq).
    apply String.eqb_eq in Heq. subst b.
    specialize (H _ Hb). rewrite <- append_assoc in H.
    rewrite prefix_app in H. discriminate.
  - intros b Hb. specialize (H _ Hb).
    destruct (prefix ((path ++ "/" ++ key) ++ "/") b) eqn:E; [|reflexivity].
    rewrite <- append_assoc in E. apply prefix_app_l in E.
    apply prefix_app_l in E. rewrite E in H. discriminate.
Qed.

(** Below a path that has nothing on the list under it, the filter changes
    nothing. *)
Lemma FilterBuildElements_nothing_below v :
  forall path, nothing_below path = true -> _FilterBuildElements v path = v.
Proof.
  induction v as [| | | | |items IH|] using value_induction;
    intros path Hpath; try reflexivity.
  rewrite FilterBuildElements_dict. f_equal.
  induction IH as [|[key x] rest Hx _ IHrest]; [reflexivity|].
  cbn [filter_items].
  destruct (nothing_below_key path key Hpath) as [E Hbelow].
  rewrite E. cbn [snd] in Hx. rewrite (Hx _ Hbelow), IHrest. reflexivity.
Qed.

Lemma slash_free_cons c s :
  slash_free (String c s) = true -> c <> "/"%char /\ slash_free s = true.
Proof.
  unfold slash_free. cbn [list_ascii_of_string existsb].
  destruct (Ascii.eqb_spec "/" c) as [<-|Hne]; cbn [orb negb];
    [discriminate | intros H; split; [congruence | exact H]].
Qed.

Lemma prefix_slash_free k s :
  slash_free s = true -> prefix (k ++ "/") s = false.
Proof.
  revert s; induction k as [|x k IH]; intros s Hs.
  - destruct s as [|c s]; [reflexivity|].
    apply slash_free_cons in Hs. destruct Hs as [Hc _].
    cbn [append prefix]. destruct (ascii_dec "/" c); [congruence | reflexivity].
  - destruct s as [|c s]; [reflexivity|].
    apply slash_free_cons in Hs. destruct Hs as [_ Hs].
    cbn [append prefix]. destruct (ascii_dec x c); [apply IH, Hs | reflexivity].
Qed.

Lemma prefix_first_component k a b :
  slash_free k = true -> slash_free a = true ->
  prefix (k ++ "/") (a ++ "/" ++ b) = true -> k = a.
Proof.
  revert a; induction k as [|x k IH]; intros [|y a] Hk Ha; cbn [append prefix].
  - reflexivity.
  - apply slash_free_cons in Ha. destruct Ha as [Hy _].
    destruct (ascii_dec "/" y); [congruence | discriminate].
  - apply slash_free_cons in Hk. destruct Hk as [Hx _].
    destruct (ascii_dec x "/"); [congruence | discriminate].
  - apply slash_free_cons in Hk. apply slash_free_cons in Ha.
    destruct (ascii_dec x y) as [->|]; [|discriminate].
    intros H. f_equal. apply IH; tauto.
Qed.

Lemma prefix_cons c a b : prefix (String c a) (String c b) = prefix a b.
Proof. cbn [prefix]. destruct (ascii_dec c c); [reflexivity | congruence]. Qed.

Lemma eqb_cons c a b : String.eqb (String c a) (String c b) = String.eqb a b.
Proof. cbn [String.eqb]. rewrite Ascii.eqb_refl. reflexivity. Qed.

(** Below [/audio/main] the filter drops the three keys and keeps the other
    items as they are. *)
Lemma filter_items_audio_main mn :
  filter_items "/audio/main" mn
  = filter (fun kv => negb (build_only_main_key (fst kv))) mn.
Proof.
  induction mn as [|[k v] rest IH]; [reflexivity|].
  cbn [filter_items filter fst].
  assert (E : in_build_only ("/audio/main" ++ "/" ++ k) = build_only_main_key k).
  { unfold in_build_only, build_only_main_key, BUILD_ONLY_ELEMENTS.
    cbn [append existsb]. rewrite !eqb_cons.
    cbn [String.eqb Ascii.eqb Bool.eqb andb orb].
    reflexivity. }
  rewrite E. destruct (build_only_main_key k); cbn [negb]; [exact IH|].
  rewrite IH. f_equal. f_equal.
  apply FilterBuildElements_nothing_below.
  unfold nothing_below, BUILD_ONLY_ELEMENTS. cbn [forallb append].
  rewrite !prefix_cons.
  rewrite (prefix_slash_free k "card"), (prefix_slash_free k "cras-config-subdir"),
    (prefix_slash_free k "files") by reflexivity.
  reflexivity.
Qed.

Lemma filter_items_audio a :
  (forall k, slash_free k = true -> k <> "main" ->
             lookup k (filter_items "/audio" a) = lookup k a)
  /\ (forall mn, lookup "main" a = Some (VDict mn) ->
        lookup "main" (filter_items "/audio" a)
        = Some (VDict (filter (fun kv => negb (build_only_main_key (fst kv)))
                              mn))).
Proof.
  split.
  - intros k Hk Hne. rewrite lookup_filter_items.
    assert (E : in_build_only ("/audio" ++ "/" ++ k) = false).
    { unfold in_build_only, BUILD_ONLY_ELEMENTS. cbn [append existsb].
      rewrite !eqb_cons. cbn [String.eqb Ascii.eqb Bool.eqb andb orb].
      destruct (String.eqb_spec k "main/card") as [->|_]; [discriminate Hk|].
      destruct (String.eqb_spec k "main/cras-config-subdir") as [->|_];
        [discriminate Hk|].
      destruct (String.eqb_spec k "main/files") as [->|_]; [discriminate Hk|].
      reflexivity. }
    rewrite E.
    destruct (lookup k a) as [v|]; [|reflexivity]. cbn [option_map]. f_equal.
    apply FilterBuildElements_nothing_below.
    unfold nothing_below, BUILD_ONLY_ELEMENTS. cbn [forallb append].
    rewrite !prefix_cons.
    assert (Hp : forall b, prefix (k ++ "/") ("main" ++ "/" ++ b) = false).
    { intros b. destruct (prefix (k ++ "/") ("main" ++ "/" ++ b)) eqn:P;
        [|reflexivity].
      apply prefix_first_component in P; [contradiction | exact Hk | reflexivity]. }
    pose proof (Hp "card") as H1. pose proof (Hp "cras-config-subdir") as H2.
    pose proof (Hp "files") as H3. cbn [append] in H1, H2, H3.
    rewrite H1, H2, H3. reflexivity.
  - intros mn Hmn. rewrite lookup_filter_items.
    change (in_build_only ("/audio" ++ "/" ++ "main")) with false.
    rewrite Hmn. cbn [option_map].
    rewrite FilterBuildElements_dict.
    change ("/audio" ++ "/" ++ "main") with "/audio/main".
    rewrite filter_items_audio_main. reflexivity.
Qed.

Lemma filter_items_model m : filtered_model m (filter_items EmptyString m).
Proof.
  split.
  - rewrite lookup_filter_items. reflexivity.
  - intros a Ha. exists (filter_items "/audio" a). split.
    + rewrite lookup_filter_items.
      change (in_build_only (EmptyString ++ "/" ++ "audio")) with false.
      rewrite Ha. cbn [option_map]. rewrite FilterBuildElements_dict.
      reflexivity.
    + apply filter_items_audio.
Qed.

Section Filter.
Variable container_str : value -> string.

Lemma transform_model_dict model derived :
  transform_model container_str model = Ok derived ->
  exists items, derived = VDict items.
Proof.
  unfold transform_model. intros H.
  repeat (apply bind_Ok in H; destruct H as (? & _ & H)).
  unfold setitem in H.
  match type of H with
  | match ?m with _ => _ end = _ => destruct m; try discriminate
  end.
  injection H as <-. eauto.
Qed.

Lemma TransformConfig_tree_models config_yaml t models :
  TransformConfig_tree container_str config_yaml = Ok t ->
  getitem t MODELS = Ok (VList models) ->
  t = VDict [(MODELS, VList models)]
  /\ Forall (fun model => exists items, model = VDict items) models.
Proof.
  unfold TransformConfig_tree. intros H Hm.
  bind_inv H as models0 Hmodels0. bind_inv H as visited Hvisited.
  bind_inv H as derived Hderived. injection H as <-.
  change (getitem (VDict [(MODELS, match models0 with
                                   | VList _ => VList derived
                                   | _ => models0
                                   end)]) MODELS)
    with (Ok (match models0 with
              | VList _ => VList derived
              | _ => models0
              end)) in Hm.
  injection Hm as Hm. rewrite Hm. split; [reflexivity|].
  destruct models0; try (injection Hm as <-); try discriminate.
  apply for_each_Ok_Forall2 in Hderived.
  clear Hvisited Hmodels0. induction Hderived as [|x y xs ys Hxy _ IH];
      constructor; [|exact IH].
    apply transform_model_dict in Hxy. exact Hxy.
Qed.

(** C8 (amended). In a transformed document whose models are a list, every
    model is a mapping, and [FilterBuildElements] returns the document with
    each model filtered: the firmware entry is removed from every model; the
    audio subtree is kept, except that [card], [cras-config-subdir] and
    [files] are removed from [audio/main]. *)
Theorem FilterBuildElements_firmware_audio :
  forall config_yaml t models,
    TransformConfig_tree container_str config_yaml = Ok t ->
    getitem t MODELS = Ok (VList models) ->
    exists ms,
      json_roundtrip t = VDict [(MODELS, VList (map VDict ms))]
      /\ FilterBuildElements_tree (json_roundtrip t)
         = Ok (VDict [(MODELS,
                       VList (map (fun m => VDict (filter_items EmptyString m))
                                  ms))])
      /\ Forall (fun m => filtered_model m (filter_items EmptyString m)) ms.
Proof.
  intros config_yaml t models H Hm.
  destruct (TransformConfig_tree_models _ _ _ H Hm) as [-> Hdicts].
  assert (Hms : exists ms, map json_roundtrip models = map VDict ms).
  { clear -Hdicts. induction Hdicts as [|x xs (items & ->) _ (ms & IH)].
    - exists []. reflexivity.
    - eexists (_ :: ms). cbn [map json_roundtrip]. rewrite IH. reflexivity. }
  destruct Hms as (ms & Hms). exists ms.
  assert (Hrt : json_roundtrip (VDict [(MODELS, VList models)])
                = VDict [(MODELS, VList (map VDict ms))]).
  { cbn [json_roundtrip map sorted_items insert_item]. rewrite Hms.
    reflexivity. }
  rewrite Hrt. split; [reflexivity|]. split.
  - unfold FilterBuildElements_tree.
    change (getitem (VDict [(MODELS, VList (map VDict ms))]) MODELS)
      with (Ok (VList (map VDict ms))).
    cbn [bind iterate].
    assert (Hf : for_each filter_model (map VDict ms)
                 = Ok (map (fun m => VDict (filter_items EmptyString m)) ms)).
    { clear. induction ms as [|m ms IH]; [reflexivity|].
      cbn [map for_each]. unfold filter_model at 1.
      rewrite FilterBuildElements_dict. cbn [bind]. rewrite IH. reflexivity. }
    rewrite Hf. reflexivity.
  - clear. induction ms; constructor; [apply filter_items_model | assumption].
Qed.

End Filter.

Lemma FilterBuildElements_firmware_audio_witness :
  exists ms,
    json_roundtrip reef_transformed = VDict [(MODELS, VList (map VDict ms))]
    /\ FilterBuildElements_tree (json_roundtrip reef_transformed)
       = Ok (VDict [(MODELS,
                     VList (map (fun m => VDict (filter_items EmptyString m))
                                ms))])
    /\ Forall (fun m => filtered_model m (filter_items EmptyString m)) ms.
Proof.
  eapply (FilterBuildElements_firmware_audio no_container_str reef_config);
    reflexivity.
Defined.

(** The audio subtree of the transformed model is not what the filter
    returns for it: [card], [cras-config-subdir] and [files] are missing. *)
Lemma FilterBuildElements_audio_changed :
  exists doc' m m',
    FilterBuildElements_tree (json_roundtrip reef_transformed) = Ok doc'
    /\ getitem (json_roundtrip reef_transformed) MODELS = Ok (VList [m])
    /\ getitem doc' MODELS = Ok (VList [m'])
    /\ getitem m "firmware" <> getitem m' "firmware"
    /\ getitem m "audio" <> getitem m' "audio".
Proof.
  eexists. eexists. eexists.
  split; [reflexivity|]. split; [reflexivity|]. split; [reflexivity|].
  split; intros H; vm_compute in H; discriminate H.
Qed.

(** ** Key order *)

Lemma str_leb_total a : forall b, str_leb a b = true \/ str_leb b a = true.
Proof.
  induction a as [|x a IH]; intros [|y b]; cbn [str_leb]; auto.
  destruct (Nat.ltb_spec (nat_of_ascii x) (nat_of_ascii y)),
           (Nat.ltb_spec (nat_of_ascii y) (nat_of_ascii x)); auto.
Qed.



Section Sorted_items_facts.
Context {A : Type}.
Implicit Types (l : list (string * A)) (x y : string * A).



End Sorted_items_facts.

(** ** Documents that differ in the order of their mappings *)







Section Determinism.
Variable container_str : value -> string.
Variable validate : value -> value -> result unit.


End Determinism.



(** * Further properties *)

(** ** Lookup through the JSON round trip *)

Lemma str_leb_refl a : str_leb a a = true.
Proof. destruct (str_leb_total a a); assumption. Qed.

Section Lookup_sorted.
Context {A : Type}.
Implicit Types (l : list (string * A)) (x : string * A) (k : string).

Lemma lookup_insert_item k x l :
  lookup k (insert_item x l)
  = if String.eqb k (fst x) then Some (snd x) else lookup k l.
Proof.
  destruct x as [kx vx]. cbn [fst snd].
  induction l as [|[ke ve] l IH]; cbn [insert_item fst lookup].
  - reflexivity.
  - destruct (str_leb kx ke) eqn:E; cbn [lookup].
    + reflexivity.
    + rewrite IH. destruct (String.eqb_spec k ke) as [->|Hne]; [|reflexivity].
      destruct (String.eqb_spec ke kx) as [->|_]; [|reflexivity].
      rewrite str_leb_refl in E. discriminate.
Qed.

Lemma lookup_sorted_items k l : lookup k (sorted_items l) = lookup k l.
Proof.
  induction l as [|[kx vx] l IH]; [reflexivity|].
  cbn [sorted_items]. rewrite lookup_insert_item, IH. reflexivity.
Qed.
End Lookup_sorted.

Lemma lookup_map_values {A B : Type} (f : A -> B) k (l : list (string * A)) :
  lookup k (map (fun '(k, x) => (k, f x)) l) = option_map f (lookup k l).
Proof.
  induction l as [|[kx vx] l IH]; [reflexivity|].
  cbn [map lookup]. destruct (String.eqb k kx); [reflexivity | exact IH].
Qed.

(** What [json.loads(json.dumps(d))[key]] finds. *)
Lemma lookup_json_roundtrip k items :
  lookup k (sorted_items (map (fun '(k, x) => (k, json_roundtrip x)) items))
  = option_map json_roundtrip (lookup k items).
Proof. rewrite lookup_sorted_items. apply lookup_map_values. Qed.

Lemma getitem_json_roundtrip v k x :
  getitem v k = Ok x -> getitem (json_roundtrip v) k = Ok (json_roundtrip x).
Proof.
  destruct v; try discriminate. cbn [json_roundtrip getitem].
  rewrite lookup_json_roundtrip.
  destruct (lookup k items); [|discriminate].
  intros H; injection H as <-. reflexivity.
Qed.

Section Transform_models.
Variable container_str : value -> string.

(** [TransformConfig] on a mapping, in terms of what the source has under
    [models]. *)
Lemma TransformConfig_tree_mapping items :
  TransformConfig_tree container_str (VDict items)
  = match lookup MODELS items with
    | None => Raise KeyError
    | Some models =>
        let models := json_roundtrip models in
        visited <- iterate models ;;
        derived <- for_each (transform_model container_str) visited ;;
        Ok (VDict [(MODELS,
                    match models with
                    | VList _ => VList derived
                    | _ => models
                    end)])
    end.
Proof.
  unfold TransformConfig_tree. cbn [json_roundtrip getitem].
  rewrite lookup_json_roundtrip.
  destruct (lookup MODELS items); reflexivity.
Qed.

(** X1. Everything in the source document except the entry [models] is
    dropped: two source mappings with the same value under [models] give the
    same outcome, text or exception, whatever else they hold. *)
Theorem TransformConfig_only_models :
  forall items1 items2,
    lookup MODELS items1 = lookup MODELS items2 ->
    TransformConfig container_str (VDict items1)
    = TransformConfig container_str (VDict items2).
Proof.
  intros items1 items2 H. unfold TransformConfig.
  rewrite !TransformConfig_tree_mapping, H. reflexivity.
Qed.

(** X2. A source document without the entry [models] is refused with
    [KeyError], and a source document that is not a mapping with
    [TypeError]; no text is produced. *)
Theorem TransformConfig_no_models :
  forall config_yaml,
    (forall items, config_yaml = VDict items -> lookup MODELS items = None) ->
    TransformConfig container_str config_yaml
    = Raise (match config_yaml with VDict _ => KeyError | _ => TypeError end).
Proof.
  intros config_yaml H. unfold TransformConfig.
  destruct config_yaml; try reflexivity.
  rewrite TransformConfig_tree_mapping, (H _ eq_refl). reflexivity.
Qed.

End Transform_models.

Lemma TransformConfig_only_models_witness :
  TransformConfig no_container_str reef_config
  = TransformConfig no_container_str (VDict [("models", VList [reef])]).
Proof.
  apply TransformConfig_only_models. reflexivity.
Defined.

Lemma TransformConfig_no_models_witness :
  TransformConfig no_container_str
    (VDict [("base-audio", VDict [("card", VStr "bxtda7219max")])])
  = Raise KeyError
  /\ TransformConfig no_container_str (VList [reef]) = Raise TypeError.
Proof.
  split.
  - apply (TransformConfig_no_models no_container_str
             (VDict [("base-audio", VDict [("card", VStr "bxtda7219max")])])).
    intros items H. injection H as <-. reflexivity.
  - apply (TransformConfig_no_models no_container_str (VList [reef])).
    intros items H. discriminate H.
Defined.

(** ** The loop body of TransformConfig *)

Lemma dict_set_twice {A : Type} k (v v' : A) d :
  dict_set k v (dict_set k v' d) = dict_set k v d.
Proof.
  induction d as [|[k0 v0] d IH]; cbn [dict_set].
  - rewrite String.eqb_refl. reflexivity.
  - destruct (String.eqb k k0) eqn:E; cbn [dict_set].
    + rewrite String.eqb_refl. reflexivity.
    + rewrite E, IH. reflexivity.
Qed.

Section Transform_model.
Variable container_str : value -> string.

Lemma getitem_Ok v k x :
  getitem v k = Ok x -> exists items, v = VDict items /\ lookup k items = Some x.
Proof.
  destruct v; try discriminate. cbn [getitem].
  destruct (lookup k items) eqn:E; [|discriminate].
  intros H; injection H as <-. eauto.
Qed.

Lemma dict_get_Ok v k default x :
  dict_get v k default = Ok x ->
  exists items,
    v = VDict items
    /\ x = match lookup k items with Some y => y | None => default end.
Proof.
  destruct v; try discriminate. cbn [dict_get]. intros H. exists items.
  split; [reflexivity|]. destruct (lookup k items); injection H as <-; reflexivity.
Qed.

(** The model that the loop body leaves, spelled out. *)
Lemma transform_model_Ok model model' :
  transform_model container_str model = Ok model' ->
  exists items audio main firmware files uris,
    model = VDict items
    /\ lookup "audio" items = Some (VDict audio)
    /\ lookup "main" audio = Some (VDict main)
    /\ lookup "firmware" items = Some (VDict firmware)
    /\ model'
       = VDict
           (dict_set "firmware"
              (VDict (dict_set "bcs-uris" (VList uris) firmware))
              (dict_set "audio"
                 (VDict
                    (dict_set "main"
                       (VDict
                          (dict_set "files" (VList files)
                             (dict_set "cras-config-dir"
                                (resolved_dir container_str main) main)))
                       audio))
                 items)).
Proof.
  unfold transform_model. intros H.
  bind_inv H as audio_parent Hap. bind_inv H as audio Haudio.
  bind_inv H as main_dir Hmd. bind_inv H as sub_dir Hsd.
  apply getitem_Ok in Hap. destruct Hap as (items & -> & Hap).
  apply getitem_Ok in Haudio. destruct Haudio as (audio_items & -> & Haudio).
  apply dict_get_Ok in Hmd. destruct Hmd as (main & -> & Hmd).
  apply dict_get_Ok in Hsd. destruct Hsd as (main0 & Hmain0 & Hsd).
  injection Hmain0 as <-.
  cbn [setitem bind] in H.
  bind_inv H as files Hfiles. cbn [setitem bind] in H.
  bind_inv H as uris Huris. bind_inv H as firmware Hfw.
  apply getitem_Ok in Hfw. destruct Hfw as (items2 & Hitems2 & Hfw).
  injection Hitems2 as <-.
  rewrite lookup_dict_set_neq in Hfw by discriminate.
  rewrite lookup_dict_set_neq in Hfw by discriminate.
  destruct firmware as [| | | | |fw|]; try discriminate H.
  cbn [setitem] in H. injection H as <-.
  exists items, audio_items, main, fw, files, uris.
  repeat split; try assumption.
  unfold resolved_dir. rewrite <- Hmd, <- Hsd.
  rewrite !dict_set_twice. reflexivity.
Qed.

(** X3. After the loop body, the model has under [audio/main/cras-config-dir]
    the authored directory, or [/etc/cras] when none is authored, followed by
    a slash and the subdirectory when the subdirectory is not empty.  In
    particular a directory that is already there is extended again. *)
Theorem transform_model_cras_config_dir :
  forall model model' audio main,
    transform_model container_str model = Ok model' ->
    getitem model "audio" = Ok (VDict audio) ->
    lookup "main" audio = Some (VDict main) ->
    (a <- getitem model' "audio" ;;
     m <- getitem a "main" ;;
     getitem m "cras-config-dir") = Ok (resolved_dir container_str main)
    /\ (forall S,
          lookup "cras-config-dir" main = None ->
          lookup "cras-config-subdir" main = Some (VStr S) ->
          resolved_dir container_str main
          = VStr (if String.eqb S EmptyString then "/etc/cras"
                  else "/etc/cras/" ++ S))
    /\ (forall D S,
          lookup "cras-config-dir" main = Some (VStr D) ->
          lookup "cras-config-subdir" main = Some (VStr S) ->
          S <> EmptyString ->
          resolved_dir container_str main = VStr (D ++ "/" ++ S)).
Proof.
  intros model model' audio main H Haudio Hmain.
  apply transform_model_Ok in H.
  destruct H as (items & audio0 & main0 & fw & files & uris
                 & -> & Ha & Hm & Hfw & ->).
  cbn [getitem] in Haudio. rewrite Ha in Haudio. injection Haudio as <-.
  rewrite Hm in Hmain. injection Hmain as <-.
  split; [|split].
  - cbn [getitem]. rewrite lookup_dict_set_neq by discriminate.
    rewrite lookup_dict_set_eq. cbn [bind getitem].
    rewrite lookup_dict_set_eq. cbn [bind getitem].
    rewrite lookup_dict_set_neq by discriminate.
    rewrite lookup_dict_set_eq. reflexivity.
  - intros S Hd Hs. unfold resolved_dir. rewrite Hd, Hs. cbn [truthy py_str].
    destruct (String.eqb S EmptyString); reflexivity.
  - intros D S Hd Hs Hne. unfold resolved_dir. rewrite Hd, Hs.
    cbn [truthy py_str]. apply String.eqb_neq in Hne. rewrite Hne. reflexivity.
Qed.

Lemma keys_dict_set_present {A : Type} k (v : A) d :
  In k (keys d) -> keys (dict_set k v d) = keys d.
Proof.
  unfold keys. induction d as [|[k0 v0] d IH]; cbn [dict_set map fst In];
    [contradiction|].
  intros H. destruct (String.eqb_spec k k0) as [->|Hne]; [reflexivity|].
  cbn [map fst]. f_equal. apply IH. destruct H as [E|H]; [congruence | exact H].
Qed.

(** X4. The loop body changes nothing in a model but the three derived
    fields: the model keeps its keys, in their order, and its entries other
    than [audio] and [firmware]; [audio] keeps its entries other than [main];
    [main] gets [files] (a list) and [cras-config-dir] and keeps the rest;
    the firmware descriptor gets [bcs-uris] (a list) and keeps the rest.
    Authored values under the three derived keys are replaced. *)
Theorem transform_model_frame :
  forall model model',
    transform_model container_str model = Ok model' ->
    exists items items' audio audio' main main' firmware firmware' files uris,
      model = VDict items /\ model' = VDict items'
      /\ keys items' = keys items
      /\ (forall k, k <> "audio" -> k <> "firmware" ->
                    lookup k items' = lookup k items)
      /\ lookup "audio" items = Some (VDict audio)
      /\ lookup "audio" items' = Some (VDict audio')
      /\ (forall k, k <> "main" -> lookup k audio' = lookup k audio)
      /\ lookup "main" audio = Some (VDict main)
      /\ lookup "main" audio' = Some (VDict main')
      /\ (forall k, k <> "cras-config-dir" -> k <> "files" ->
                    lookup k main' = lookup k main)
      /\ lookup "files" main' = Some (VList files)
      /\ lookup "firmware" items = Some (VDict firmware)
      /\ lookup "firmware" items' = Some (VDict firmware')
      /\ (forall k, k <> "bcs-uris" -> lookup k firmware' = lookup k firmware)
      /\ lookup "bcs-uris" firmware' = Some (VList uris).
Proof.
  intros model model' H. apply transform_model_Ok in H.
  destruct H as (items & audio & main & fw & files & uris
                 & -> & Ha & Hm & Hfw & ->).
  set (main' := dict_set "files" (VList files)
                  (dict_set "cras-config-dir"
                     (resolved_dir container_str main) main)).
  set (audio' := dict_set "main" (VDict main') audio).
  set (fw' := dict_set "bcs-uris" (VList uris) fw).
  exists items,
    (dict_set "firmware" (VDict fw') (dict_set "audio" (VDict audio') items)),
    audio, audio', main, main', fw, fw', files, uris.
  split; [reflexivity|]. split; [reflexivity|].
  split.
  { rewrite !keys_dict_set_present; [reflexivity | |].
    - apply (lookup_Some_in_keys _ _ _ Ha).
    - rewrite keys_dict_set_present;
        [apply (lookup_Some_in_keys _ _ _ Hfw)
        | apply (lookup_Some_in_keys _ _ _ Ha)]. }
  split.
  { intros k H1 H2. rewrite !lookup_dict_set_neq by assumption. reflexivity. }
  split; [exact Ha|]. split.
  { rewrite lookup_dict_set_neq by discriminate. apply lookup_dict_set_eq. }
  split.
  { intros k H1. unfold audio'. apply lookup_dict_set_neq. exact H1. }
  split; [exact Hm|]. split; [apply lookup_dict_set_eq|]. split.
  { intros k H1 H2. unfold main'.
    rewrite !lookup_dict_set_neq by assumption. reflexivity. }
  split; [apply lookup_dict_set_eq|]. split; [exact Hfw|].
  split; [apply lookup_dict_set_eq|]. split.
  { intros k H1. unfold fw'. apply lookup_dict_set_neq. exact H1. }
  apply lookup_dict_set_eq.
Qed.

End Transform_model.

Lemma transform_model_cras_config_dir_witness :
  (model' <- transform_model no_container_str basking ;;
   a <- getitem model' "audio" ;;
   m <- getitem a "main" ;;
   getitem m "cras-config-dir") = Ok (VStr "/etc/cras/basking").
Proof.
  destruct (transform_model no_container_str basking) as [model'|e] eqn:E;
    [|vm_compute in E; discriminate E].
  cbn [bind].
  destruct (transform_model_cras_config_dir no_container_str basking model'
              [("main", VDict basking_main)] basking_main E eq_refl eq_refl)
    as (H & _).
  rewrite H. reflexivity.
Defined.

Lemma transform_model_frame_witness :
  exists model',
    transform_model no_container_str basking = Ok model'
    /\ getitem model' "name" = Ok (VStr "basking").
Proof.
  destruct (transform_model no_container_str basking) as [model'|e] eqn:E;
    [|vm_compute in E; discriminate E].
  exists model'. split; [reflexivity|].
  destruct (transform_model_frame no_container_str basking model' E)
    as (items & items' & audio & audio' & main & main' & fw & fw' & files
        & uris & Hitems & -> & _ & Hother & _).
  cbn [getitem]. rewrite Hother by discriminate.
  injection Hitems as <-. reflexivity.
Defined.

(** ** The manifest in full *)

Section Manifest.
Variable container_str : value -> string.

Lemma GetAudioFiles_strings name firmware main nt main' card subdir :
  GetNamedTuple (model_with_audio name firmware main) = Ok nt ->
  GetNamedTuple (VDict main) = Ok main' ->
  getattr main' "card" = Ok (VStr card) ->
  getattr main' "cras_config_subdir" = Ok (VStr subdir) ->
  _GetAudioFiles container_str (model_with_audio name firmware main)
  = if truthy (getattr_default main' "firmware_bin" VNone)
    then
      firmware_bin <- getattr main' "firmware_bin" ;;
      _AddAudioFile (audio_manifest (subdir_prefix subdir) card card)
        "topology" "/lib/firmware" firmware_bin
    else Ok (audio_manifest (subdir_prefix subdir) card card).
Proof.
  intros Hnt Hmain Hcard Hsubdir. unfold _GetAudioFiles. rewrite Hnt.
  cbn [bind].
  apply GetNamedTuple_model_with_audio in Hnt.
  destruct Hnt as (name' & firmware' & main0 & _ & _ & Hmain0 & ->).
  rewrite Hmain in Hmain0. injection Hmain0 as <-.
  change (getattr (VTuple [("name", name');
                           ("audio", VTuple [("main", main')]);
                           ("firmware", firmware')]) "audio")
    with (Ok (VTuple [("main", main')])).
  cbn [bind].
  change (getattr (VTuple [("main", main')]) "main") with (Ok main').
  cbn [bind]. rewrite Hcard, Hsubdir. cbn [bind truthy format_arg py_str].
  unfold getattr_default at 1.
  rewrite (GetNamedTuple_identifier_fields main main' "ucm-suffix" Hmain eq_refl).
  unfold subdir_prefix.
  destruct (String.eqb subdir EmptyString);
    cbn [negb truthy bind _AddAudioFile os_path_join app];
    rewrite append_nil_r; reflexivity.
Qed.

(** X5. For an audio descriptor whose card and subdirectory are strings and
    which has no (or an empty) firmware binary, the manifest is exactly four
    entries: the card file and [dsp.ini], both with the subdirectory before
    them when it is not empty, from [cras-config] to [/etc/cras] (whatever
    [cras-config-dir] says), and the two UCM files under the directory named
    after the card. *)
Theorem GetAudioFiles_four_entries :
  forall name firmware main nt main' card subdir,
    GetNamedTuple (model_with_audio name firmware main) = Ok nt ->
    GetNamedTuple (VDict main) = Ok main' ->
    getattr main' "card" = Ok (VStr card) ->
    getattr main' "cras_config_subdir" = Ok (VStr subdir) ->
    truthy (getattr_default main' "firmware_bin" VNone) = false ->
    _GetAudioFiles container_str (model_with_audio name firmware main)
    = Ok (audio_manifest (subdir_prefix subdir) card card).
Proof.
  intros name firmware main nt main' card subdir Hnt Hmain Hcard Hsubdir Hbin.
  rewrite (GetAudioFiles_strings _ _ _ _ _ _ _ Hnt Hmain Hcard Hsubdir), Hbin.
  reflexivity.
Qed.

(** X6. With a non-empty string as firmware binary, the manifest has a fifth
    and last entry, from [topology] to [/lib/firmware], after the same four
    entries. *)
Theorem GetAudioFiles_topology_entry :
  forall name firmware main nt main' card subdir firmware_bin,
    GetNamedTuple (model_with_audio name firmware main) = Ok nt ->
    GetNamedTuple (VDict main) = Ok main' ->
    getattr main' "card" = Ok (VStr card) ->
    getattr main' "cras_config_subdir" = Ok (VStr subdir) ->
    getattr main' "firmware_bin" = Ok (VStr firmware_bin) ->
    firmware_bin <> EmptyString ->
    _GetAudioFiles container_str (model_with_audio name firmware main)
    = Ok (audio_manifest (subdir_prefix subdir) card card
          ++ [asset (path_join "topology" firmware_bin)
                    (path_join "/lib/firmware" firmware_bin)])%list.
Proof.
  intros name firmware main nt main' card subdir firmware_bin
         Hnt Hmain Hcard Hsubdir Hbin Hne.
  rewrite (GetAudioFiles_strings _ _ _ _ _ _ _ Hnt Hmain Hcard Hsubdir).
  unfold getattr_default. rewrite Hbin. cbn [truthy bind].
  apply String.eqb_neq in Hne. rewrite Hne. reflexivity.
Qed.

End Manifest.

Lemma GetAudioFiles_four_entries_witness :
  _GetAudioFiles no_container_str
    (model_with_audio (VStr "basking") reef_firmware
       [ ("card", VStr "bxtda7219max");
         ("cras-config-dir", VStr "/opt/cras");
         ("cras-config-subdir", VStr "basking") ])
  = Ok [ asset "cras-config/basking/bxtda7219max"
               "/etc/cras/basking/bxtda7219max";
         asset "cras-config/basking/dsp.ini" "/etc/cras/basking/dsp.ini";
         asset "ucm-config/bxtda7219max/HiFi.conf"
               "/ucm/share/alsa/ucm/bxtda7219max/HiFi.conf";
         asset "ucm-config/bxtda7219max/bxtda7219max.conf"
               "/ucm/share/alsa/ucm/bxtda7219max/bxtda7219max.conf" ].
Proof.
  eapply (GetAudioFiles_four_entries no_container_str _ _ _ _ _
            "bxtda7219max" "basking"); reflexivity.
Defined.

Lemma GetAudioFiles_topology_entry_witness :
  _GetAudioFiles no_container_str basking
  = Ok (audio_manifest "basking/" "bxtda7219max" "bxtda7219max"
        ++ [asset "topology/dfw_sst.bin" "/lib/firmware/dfw_sst.bin"])%list.
Proof.
  eapply (GetAudioFiles_topology_entry no_container_str _ _ _ _ _
            "bxtda7219max" "basking" "dfw_sst.bin");
    try reflexivity.
  discriminate.
Defined.

(** ** Firmware URIs, returned *)

Lemma for_each_map_Ok {A B C : Type} (f : B -> result C) (g : A -> B)
  (h : A -> C) l :
  (forall x, In x l -> f (g x) = Ok (h x)) ->
  for_each f (map g l) = Ok (map h l).
Proof.
  induction l as [|x l IH]; intros H; [reflexivity|].
  cbn [map for_each]. rewrite (H x (or_introl eq_refl)). cbn [bind].
  rewrite IH; [reflexivity|]. intros y Hy. apply H. right; exact Hy.
Qed.

Section Firmware_returned.
Variable container_str : value -> string.

(** X7. When the overlay identifier is a non-empty string, the coreboot
    target a string, the model has a name and the images (the non-empty
    values of the fields whose name ends in [image]) are strings, all of them
    ASCII, the derivation returns one URI per image, in the order of the
    fields: the template filled with the identifier without its occurrences
    of [overlay-], the target and the image.  Fields with an empty value and
    fields with another name give no URI. *)
Theorem GetFirmwareUris_returns :
  forall model nt fields overlay targets Y name fnames,
    GetNamedTuple model = Ok nt ->
    getattr nt "firmware" = Ok (VTuple fields) ->
    getattr nt "name" = Ok name ->
    lookup "bcs_overlay" fields = Some (VStr overlay) ->
    overlay <> EmptyString ->
    lookup "build_targets" fields = Some targets ->
    getattr targets "coreboot" = Ok (VStr Y) ->
    is_ascii (str_replace "overlay-" EmptyString overlay) = true ->
    is_ascii Y = true ->
    valid_images fields = map VStr fnames ->
    forallb is_ascii fnames = true ->
    _GetFirmwareUris container_str model
    = Ok (map (fun fname =>
                 VStr (uri_format (str_replace "overlay-" EmptyString overlay)
                                  Y fname))
              fnames).
Proof.
  intros model nt fields overlay targets Y name fnames
         Hnt Hfw Hname Hov Hne Hbt Hcb Hbcs HY Himages Hascii.
  rewrite (GetFirmwareUris_start _ _ _ _ Hnt Hfw).
  cbn [getattr]. rewrite Hov, Hbt. cbn [bind truthy].
  apply String.eqb_neq in Hne. rewrite Hne. cbn [negb call_replace bind].
  fold (getattr targets "coreboot"). rewrite Hcb. cbn [bind].
  rewrite Himages. apply for_each_map_Ok.
  intros f Hf. rewrite forallb_forall in Hascii.
  rewrite Hname. cbn [bind format_field].
  rewrite Hbcs, HY, (Hascii _ Hf). reflexivity.
Qed.

End Firmware_returned.

Lemma GetFirmwareUris_returns_witness :
  _GetFirmwareUris no_container_str reef
  = Ok [ VStr (uri_format "reef-private" "reef" "Reef.9042.87.1.tbz2");
         VStr (uri_format "reef-private" "reef" "Reef_EC.9042.87.1.tbz2") ].
Proof.
  eapply (GetFirmwareUris_returns no_container_str reef _ _
            "overlay-reef-private" _ "reef" _
            ["Reef.9042.87.1.tbz2"; "Reef_EC.9042.87.1.tbz2"]);
    try reflexivity.
  discriminate.
Defined.

(** ** Keys that are not identifiers *)

Lemma check_names_exists names n :
  In n names -> identifier_chars n = false ->
  exists e, check_names names = Raise e.
Proof.
  induction names as [|m names IH]; intros Hin Hn; [contradiction|].
  cbn [check_names].
  destruct (check_name m) as [[]|e] eqn:E; cbn [bind]; [|eauto].
  destruct Hin as [->|Hin]; [|apply IH; assumption].
  unfold check_name in E. rewrite Hn in E. discriminate.
Qed.

(** X8. A mapping with a key that, once its hyphens and at-signs are
    rewritten, still has a character other than a letter, a digit or an
    underscore is never converted: [GetNamedTuple] raises, and so do both
    derivations for a model with such a key (at its top level), wherever the
    key is and whatever it holds. *)
Theorem GetNamedTuple_key_not_identifier :
  forall container_str items k,
    In k (keys items) ->
    identifier_chars (field_name k) = false ->
    (exists e, GetNamedTuple (VDict items) = Raise e)
    /\ (exists e, _GetAudioFiles container_str (VDict items) = Raise e)
    /\ (exists e, _GetFirmwareUris container_str (VDict items) = Raise e).
Proof.
  intros container_str items k Hk Hid.
  assert (H : exists e, GetNamedTuple (VDict items) = Raise e).
  { rewrite GetNamedTuple_dict.
    destruct (convert_items items []) as [fields|e] eqn:E; cbn [bind]; [|eauto].
    unfold namedtuple.
    destruct (forallb is_ascii (keys fields)); cbn [negb]; [|eauto].
    destruct (check_names_exists (keys fields) (field_name k)) as (e & He).
    - apply (convert_items_keys _ _ _ E). right. eauto.
    - exact Hid.
    - rewrite He. cbn [bind]. eauto. }
  destruct H as (e & He). split; [eauto|].
  unfold _GetAudioFiles, _GetFirmwareUris. rewrite He. cbn [bind]. eauto.
Qed.

Lemma GetNamedTuple_key_not_identifier_witness :
  (exists e,
     GetNamedTuple
       (VDict [("name", VStr "reef"); ("audio.main", VStr "x")]) = Raise e)
  /\ (exists e,
        _GetAudioFiles no_container_str
          (VDict [("name", VStr "reef"); ("audio.main", VStr "x")]) = Raise e)
  /\ (exists e,
        _GetFirmwareUris no_container_str
          (VDict [("name", VStr "reef"); ("audio.main", VStr "x")]) = Raise e).
Proof.
  apply (GetNamedTuple_key_not_identifier no_container_str _ "audio.main").
  - right; left; reflexivity.
  - reflexivity.
Defined.

(** ** Attribute access after the conversion *)

(** X9. When no two keys of a mapping are rewritten to the same name, every
    key is found again after the conversion: the attribute named by the
    rewritten key holds the converted value of that key. *)
Theorem GetNamedTuple_getattr :
  forall items r k v,
    GetNamedTuple (VDict items) = Ok r ->
    NoDup (map field_name (keys items)) ->
    In (k, v) items ->
    exists x, convert_value v = Ok x /\ getattr r (field_name k) = Ok x.
Proof.
  intros items r k v H Hnd Hin.
  rewrite GetNamedTuple_dict in H. bind_inv H as fields Hfields.
  apply namedtuple_Ok in H. destruct H as [-> _].
  destruct (convert_items_lookup _ _ _ (field_name k) Hfields)
    as [(pre & k0 & v0 & post & x & E & Hk & _ & Hx & Hl) | [Hnone _]].
  - assert (Hin0 : In (k0, v0) items).
    { rewrite E. apply in_or_app. right; left; reflexivity. }
    assert (Ek : k0 = k).
    { apply (NoDup_map_injective field_name (keys items)); auto;
        unfold keys; [apply (in_map fst _ _ Hin0) | apply (in_map fst _ _ Hin)]. }
    subst k0.
    assert (Ev : v0 = v).
    { assert (Hnd' : NoDup (keys items)).
      { apply (NoDup_map_inv field_name). exact Hnd. }
      clear -Hin Hin0 Hnd'. unfold keys in Hnd'.
      induction items as [|[k1 v1] items IH]; [contradiction|].
      cbn [map fst] in Hnd'. inversion Hnd' as [|? ? Hnin Hnd'']; subst.
      destruct Hin as [E1|Hin], Hin0 as [E2|Hin0].
      - congruence.
      - injection E1 as -> ->. exfalso. apply Hnin. apply (in_map fst _ _ Hin0).
      - injection E2 as -> ->. exfalso. apply Hnin. apply (in_map fst _ _ Hin).
      - apply IH; assumption. }
    subst v0. exists x. split; [exact Hx|]. cbn [getattr]. rewrite Hl. reflexivity.
  - exfalso. apply (Hnone k); [|reflexivity].
    unfold keys. apply (in_map fst _ _ Hin).
Qed.

Lemma GetNamedTuple_getattr_witness :
  exists x,
    convert_value (VStr "basking") = Ok x
    /\ getattr (VTuple [ ("card", VStr "bxtda7219max");
                         ("cras_config_subdir", VStr "basking");
                         ("ucm_suffix", VStr "basking");
                         ("firmware_bin", VStr "dfw_sst.bin") ])
         (field_name "ucm-suffix") = Ok x.
Proof.
  apply (GetNamedTuple_getattr basking_main).
  - reflexivity.
  - vm_compute. repeat constructor; cbn; intuition discriminate.
  - right; right; left; reflexivity.
Defined.

(** ** The filter, again *)

Lemma dict_paths_dict items path :
  dict_paths (VDict items) path = items_paths path items.
Proof.
  cbn [dict_paths]. induction items as [|[key x] rest IH]; [reflexivity|].
  cbn [items_paths]. rewrite IH. reflexivity.
Qed.

(** X10. Filtering is idempotent: a second pass over a filtered tree changes
    nothing. *)
Theorem FilterBuildElements_idempotent :
  forall config path,
    _FilterBuildElements (_FilterBuildElements config path) path
    = _FilterBuildElements config path.
Proof.
  intros config.
  induction config as [| | | | |items IH|] using value_induction;
    intros path; try reflexivity.
  rewrite !FilterBuildElements_dict. f_equal.
  induction IH as [|[key x] rest Hx _ IHrest]; [reflexivity|].
  cbn [filter_items].
  destruct (in_build_only (path ++ "/" ++ key)) eqn:E; [exact IHrest|].
  cbn [filter_items]. rewrite E. cbn [snd] in Hx. rewrite Hx, IHrest.
  reflexivity.
Qed.

(** X11. No entry of a filtered tree of dicts has a path of the build-only
    list, and every entry that is left was there before with the same path:
    the filter removes the listed subtrees at any depth and adds nothing. *)
Theorem FilterBuildElements_paths :
  forall config path p,
    In p (dict_paths (_FilterBuildElements config path) path) ->
    in_build_only p = false /\ In p (dict_paths config path).
Proof.
  intros config.
  induction config as [| | | | |items IH|] using value_induction;
    intros path p; try (intros []).
  rewrite FilterBuildElements_dict, !dict_paths_dict.
  induction IH as [|[key x] rest Hx _ IHrest]; [intros []|].
  cbn [filter_items items_paths].
  destruct (in_build_only (path ++ "/" ++ key)) eqn:E.
  - intros Hin. destruct (IHrest Hin) as [H1 H2]. split; [exact H1|].
    right. apply in_or_app. right; exact H2.
  - cbn [items_paths]. intros [<-|Hin].
    + split; [exact E | left; reflexivity].
    + apply in_app_or in Hin. destruct Hin as [Hin|Hin].
      * cbn [snd] in Hx. destruct (Hx _ _ Hin) as [H1 H2].
        split; [exact H1|]. right. apply in_or_app. left; exact H2.
      * destruct (IHrest Hin) as [H1 H2]. split; [exact H1|].
        right. apply in_or_app. right; exact H2.
Qed.

Lemma FilterBuildElements_paths_witness :
  in_build_only "/audio/main/ucm-suffix" = false
  /\ In "/audio/main/ucm-suffix" (dict_paths basking EmptyString).
Proof.
  apply (FilterBuildElements_paths basking EmptyString).
  vm_compute. right; right; right; left; reflexivity.
Defined.

(** ** ValidateConfig, again *)

Lemma for_each_Raise {A B : Type} (f : A -> result B) l e :
  Forall (fun x => (exists y, f x = Ok y) \/ f x = Raise e) l ->
  Exists (fun x => f x = Raise e) l ->
  for_each f l = Raise e.
Proof.
  induction l as [|x l IH]; intros Hall Hex; [inversion Hex|].
  inversion Hall as [|? ? Hx Hall']; subst. cbn [for_each].
  destruct Hx as [(y & Hy)|Hx]; [|rewrite Hx; reflexivity].
  rewrite Hy. cbn [bind].
  inversion Hex as [? ? Hx|? ? Hex']; subst; [congruence|].
  rewrite (IH Hall' Hex'). reflexivity.
Qed.

(** X12. On a document whose models are mappings, one model without the key
    [name] makes [ValidateConfig] raise [KeyError]: the names are collected
    before they are compared, so the error is not [ValidationError] even when
    other names repeat. *)
Theorem ValidateConfig_name_missing :
  forall doc models,
    getitem doc "models" = Ok (VList models) ->
    Forall (fun model => exists items, model = VDict items) models ->
    Exists (fun model => getitem model "name" = Raise KeyError) models ->
    ValidateConfig doc = Raise KeyError.
Proof.
  intros doc models Hdoc Hall Hex. unfold ValidateConfig.
  rewrite Hdoc. cbn [bind iterate].
  rewrite (for_each_Raise (fun model => getitem model "name") models KeyError);
    [reflexivity | | exact Hex].
  apply (Forall_impl _ (P := fun model => exists items, model = VDict items));
    [|exact Hall].
  intros model (items & ->). cbn [getitem].
  destruct (lookup "name" items); eauto.
Qed.

Lemma ValidateConfig_name_missing_witness :
  ValidateConfig
    (VDict [("models",
             VList [reef; reef; VDict [("audio", VDict [])]])])
  = Raise KeyError.
Proof.
  eapply ValidateConfig_name_missing.
  - reflexivity.
  - repeat constructor; eexists; reflexivity.
  - right; right; left. reflexivity.
Defined.

(** ** The stages together *)

Lemma json_roundtrip_not_tuple v fields : json_roundtrip v <> VTuple fields.
Proof. destruct v; discriminate. Qed.

Lemma json_roundtrip_dict v items :
  json_roundtrip v = VDict items -> exists items0, v = VDict items0.
Proof. destruct v; try discriminate. eauto. Qed.

Section Stages.
Variable container_str : value -> string.
Variable validate : value -> value -> result unit.

Lemma transform_model_not_string s :
  exists e, transform_model container_str (VStr s) = Raise e.
Proof. exists TypeError. reflexivity. Qed.

(** X13. The models are derived one by one and there is no partial result:
    for a source document whose [models] entry is a list, [TransformConfig]
    returns a text exactly when the loop body succeeds on every model of the
    list (as [json.loads] returns it), and the derived models are then in the
    order of the source, one for one. *)
Theorem TransformConfig_all_models :
  forall items models,
    lookup MODELS items = Some (VList models) ->
    ((exists text, TransformConfig container_str (VDict items) = Ok text)
     <-> Forall (fun model =>
                   exists derived,
                     transform_model container_str (json_roundtrip model)
                     = Ok derived)
                models)
    /\ (forall t,
          TransformConfig_tree container_str (VDict items) = Ok t ->
          exists derived,
            t = VDict [(MODELS, VList derived)]
            /\ Forall2 (fun model d =>
                          transform_model container_str (json_roundtrip model)
                          = Ok d)
                       models derived).
Proof.
  intros items models Hm. unfold TransformConfig.
  rewrite TransformConfig_tree_mapping, Hm. cbn [json_roundtrip iterate bind].
  split; [split|].
  - intros (text & H). bind_inv H as t Ht. bind_inv Ht as derived Hd.
    apply for_each_Ok_Forall2 in Hd. clear -Hd.
    remember (map json_roundtrip models) as l eqn:El.
    revert models El. induction Hd as [|x y l ys Hxy _ IH]; intros models El.
    + destruct models; [constructor | discriminate].
    + destruct models as [|m models]; [discriminate|].
      cbn [map] in El. injection El as -> ->.
      constructor; [eauto | apply IH; reflexivity].
  - intros Hall.
    assert (H : exists derived,
              for_each (transform_model container_str)
                (map json_roundtrip models) = Ok derived).
    { clear Hm. induction Hall as [|m models Hd _ IH].
      - exists []. reflexivity.
      - destruct Hd as (d & Hd). destruct IH as (ds & IH).
        exists (d :: ds). cbn [map for_each]. rewrite Hd. cbn [bind].
        rewrite IH. reflexivity. }
    destruct H as (derived & H). rewrite H. cbn [bind]. eauto.
  - intros t H. bind_inv H as derived Hd. injection H as <-.
    exists derived. split; [reflexivity|].
    apply for_each_Ok_Forall2 in Hd. clear -Hd.
    remember (map json_roundtrip models) as l eqn:El.
    revert models El. induction Hd as [|x y l ys Hxy _ IH]; intros models El.
    + destruct models; [constructor | discriminate].
    + destruct models as [|m models]; [discriminate|].
      cbn [map] in El. injection El as -> ->.
      constructor; [exact Hxy | apply IH; reflexivity].
Qed.

Lemma TransformConfig_tree_Ok config_yaml t :
  TransformConfig_tree container_str config_yaml = Ok t ->
  exists models visited derived,
    getitem (json_roundtrip config_yaml) MODELS = Ok models
    /\ iterate models = Ok visited
    /\ for_each (transform_model container_str) visited = Ok derived
    /\ t = VDict [(MODELS, match models with
                           | VList _ => VList derived
                           | _ => models
                           end)].
Proof.
  unfold TransformConfig_tree. intros H.
  bind_inv H as models Hmodels. bind_inv H as visited Hvisited.
  bind_inv H as derived Hderived. injection H as <-.
  exists models, visited, derived. auto.
Qed.

(** The filter cannot fail on what [TransformConfig] returns. *)
Lemma FilterBuildElements_tree_total config_yaml t :
  TransformConfig_tree container_str config_yaml = Ok t ->
  exists filtered, FilterBuildElements_tree (json_roundtrip t) = Ok filtered.
Proof.
  intros H.
  destruct (TransformConfig_tree_Ok _ _ H)
    as (models & visited & derived & Hmodels & Hvisited & Hderived & Ht).
  destruct models as [|b|z|s|l|items|fields]; try discriminate Hvisited.
  - cbn [iterate] in Hvisited. injection Hvisited as <-.
    destruct s as [|c s]; [|discriminate Hderived].
    rewrite Ht. eexists. reflexivity.
  - assert (Hm : getitem t MODELS = Ok (VList derived))
      by (rewrite Ht; reflexivity).
    destruct (FilterBuildElements_firmware_audio container_str _ _ _ H Hm)
      as (ms & _ & Hf & _). eauto.
  - cbn [iterate] in Hvisited. injection Hvisited as <-.
    destruct items as [|[k x] items]; [|discriminate Hderived].
    rewrite Ht. eexists. reflexivity.
  - exfalso. apply getitem_Ok in Hmodels.
    destruct Hmodels as (items0 & Hrt & Hl).
    destruct config_yaml as [| | | | |items|]; try discriminate Hrt.
    cbn [json_roundtrip] in Hrt. injection Hrt as <-.
    rewrite lookup_json_roundtrip in Hl.
    destruct (lookup MODELS items); [|discriminate].
    cbn [option_map] in Hl. injection Hl as Hl.
    apply (json_roundtrip_not_tuple _ _ Hl).
Qed.

(** X14. Filtering is no gate: [Main] with the filter returns a text exactly
    when [Main] without the filter does; and without the filter the text is
    the one [TransformConfig] returns. *)
Theorem Main_filter_is_no_gate :
  forall schema config,
    ((exists text, Main container_str validate schema config true = Ok text)
     <-> (exists text,
            Main container_str validate schema config false = Ok text))
    /\ (forall text,
          Main container_str validate schema config false = Ok text ->
          TransformConfig container_str config = Ok text).
Proof.
  intros schema config. unfold Main, TransformConfig.
  destruct (TransformConfig_tree container_str config) as [t|e] eqn:Ht;
    cbn [bind].
  - destruct (ValidateConfigSchema validate schema (json_roundtrip t))
      as [[]|e]; cbn [bind].
    + destruct (ValidateConfig (json_roundtrip t)) as [[]|e]; cbn [bind].
      * split; [|intros text H; exact H].
        destruct (FilterBuildElements_tree_total _ _ Ht) as (f & Hf).
        unfold FilterBuildElements. rewrite Hf. cbn [bind].
        split; intros _; eauto.
      * split; [|discriminate].
        split; intros (text & H); discriminate.
    + split; [|discriminate].
      split; intros (text & H); discriminate.
  - split; [|discriminate].
    split; intros (text & H); discriminate.
Qed.

End Stages.

Lemma TransformConfig_all_models_witness :
  exists derived,
    reef_transformed = VDict [(MODELS, VList derived)]
    /\ Forall2 (fun model d =>
                  transform_model no_container_str (json_roundtrip model)
                  = Ok d)
               [reef] derived.
Proof.
  destruct (TransformConfig_all_models no_container_str
              [ ("base-audio", VDict [("card", VStr "bxtda7219max")]);
                ("models", VList [reef]) ] [reef] eq_refl) as [_ H].
  apply H. reflexivity.
Defined.

Section Names.
Variable container_str : value -> string.

(** X15. The name check of [Main] judges the names as authored: on the
    document that [TransformConfig] returns (loaded again), [ValidateConfig]
    returns when the names of the source models are pairwise different and
    raises [ValidationError] with the list of these names when one repeats;
    the derivation neither changes nor hides a name. *)
Theorem ValidateConfig_after_transform :
  forall items models names t,
    lookup MODELS items = Some (VList models) ->
    Forall2 (fun model name => getitem model "name" = Ok (VStr name))
            models names ->
    TransformConfig_tree container_str (VDict items) = Ok t ->
    (NoDup names -> ValidateConfig (json_roundtrip t) = Ok tt)
    /\ (~ NoDup names ->
        ValidateConfig (json_roundtrip t)
        = Raise (ValidationError (map VStr names))).
Proof.
  intros items models names t Hm Hnames Ht.
  destruct (TransformConfig_all_models container_str items models Hm)
    as [_ H].
  destruct (H t Ht) as (derived & -> & Hd). clear H Ht.
  assert (Hn : Forall2 (fun model name => getitem model "name" = Ok (VStr name))
                       (map json_roundtrip derived) names).
  { clear Hm. revert names Hnames.
    induction Hd as [|m d models derived Hmd _ IH]; intros names Hnames;
      inversion Hnames as [|? n ? names' Hmn Hrest]; subst; cbn [map];
      constructor; [|apply IH; exact Hrest].
    apply (getitem_json_roundtrip d "name" (VStr n)).
    apply (getitem_json_roundtrip m "name" (VStr n)) in Hmn.
    destruct (transform_model_frame container_str _ _ Hmd)
      as (items0 & items' & a & a' & mn & mn' & fw & fw' & files & uris
          & E0 & -> & _ & Hother & _).
    rewrite E0 in Hmn. cbn [getitem] in Hmn |- *.
    rewrite Hother by discriminate. exact Hmn. }
  assert (Hdoc : getitem (json_roundtrip (VDict [(MODELS, VList derived)]))
                   "models" = Ok (VList (map json_roundtrip derived)))
    by reflexivity.
  rewrite (ValidateConfig_names _ _ _ Hdoc Hn).
  destruct (ListDec.NoDup_dec string_dec names); split; intros H;
    try reflexivity; contradiction.
Qed.

End Names.

Lemma ValidateConfig_after_transform_witness :
  ValidateConfig (json_roundtrip reef_twice_transformed)
  = Raise (ValidationError [VStr "reef"; VStr "reef"]).
Proof.
  destruct (ValidateConfig_after_transform no_container_str
              [("models", VList [reef; reef])] [reef; reef] ["reef"; "reef"]
              reef_twice_transformed eq_refl) as [_ H].
  - repeat constructor.
  - reflexivity.
  - apply H. intros Hnd. inversion Hnd as [|? ? Hnin _]; subst.
    apply Hnin. left; reflexivity.
Defined.

(** ** What the filter keeps *)

(** X16. In a model, the entries other than [firmware] and [audio] whose key
    has no slash (the name of the model, for one) come out of the filter
    exactly as they went in, whatever they hold. *)
Theorem FilterBuildElements_other_entries :
  forall model k,
    slash_free k = true -> k <> "firmware" -> k <> "audio" ->
    lookup k (filter_items EmptyString model) = lookup k model
    /\ getitem (_FilterBuildElements (VDict model) EmptyString) k
       = getitem (VDict model) k.
Proof.
  intros model k Hk Hfw Haudio.
  assert (H : lookup k (filter_items EmptyString model) = lookup k model).
  { rewrite lookup_filter_items.
    assert (E : in_build_only (EmptyString ++ "/" ++ k) = false).
    { unfold in_build_only, BUILD_ONLY_ELEMENTS. cbn [append existsb].
      rewrite !eqb_cons.
      destruct (String.eqb_spec k "firmware") as [->|_]; [congruence|].
      destruct (String.eqb_spec k "audio/main/card") as [->|_];
        [discriminate Hk|].
      destruct (String.eqb_spec k "audio/main/cras-config-subdir") as [->|_];
        [discriminate Hk|].
      destruct (String.eqb_spec k "audio/main/files") as [->|_];
        [discriminate Hk|].
      reflexivity. }
    rewrite E. destruct (lookup k model) as [v|]; [|reflexivity].
    cbn [option_map]. f_equal. apply FilterBuildElements_nothing_below.
    unfold nothing_below, BUILD_ONLY_ELEMENTS. cbn [forallb append].
    rewrite !prefix_cons.
    rewrite (prefix_slash_free k "firmware") by reflexivity.
    assert (Hp : forall b, prefix (k ++ "/") ("audio" ++ "/" ++ b) = false).
    { intros b. destruct (prefix (k ++ "/") ("audio" ++ "/" ++ b)) eqn:P;
        [|reflexivity].
      apply prefix_first_component in P;
        [contradiction | exact Hk | reflexivity]. }
    pose proof (Hp "main/card") as H1.
    pose proof (Hp "main/cras-config-subdir") as H2.
    pose proof (Hp "main/files") as H3. cbn [append] in H1, H2, H3.
    rewrite H1, H2, H3. reflexivity. }
  split; [exact H|].
  rewrite FilterBuildElements_dict. cbn [getitem]. rewrite H. reflexivity.
Qed.

Lemma FilterBuildElements_other_entries_witness :
  getitem (_FilterBuildElements basking EmptyString) "name"
  = Ok (VStr "basking").
Proof.
  destruct (FilterBuildElements_other_entries
              [ ("name", VStr "basking");
                ("audio", VDict [("main", VDict basking_main)]);
                ("firmware", reef_firmware) ] "name") as [_ H];
    [reflexivity | discriminate | discriminate |].
  exact H.
Defined.

(** ** The filter on its own output *)

Section Sorted_again.
Context {A : Type}.
Implicit Types (l : list (string * A)) (x : string * A).

Lemma insert_item_in_order x l :
  keys_in_order l -> keys_in_order (insert_item x l).
Proof.
  induction l as [|e l IH]; intros H.
  - cbn. auto.
  - cbn [insert_item]. destruct (str_leb (fst x) (fst e)) eqn:E.
    + split; [exact E | exact H].
    + destruct H as [He Hl]. split; [|apply IH, Hl].
      destruct l as [|y l]; cbn [insert_item].
      * destruct (str_leb_total (fst x) (fst e)); congruence.
      * destruct (str_leb (fst x) (fst y));
          [destruct (str_leb_total (fst x) (fst e)); congruence | exact He].
Qed.

Lemma sorted_items_in_order l : keys_in_order (sorted_items l).
Proof.
  induction l as [|x l IH]; [exact I|].
  cbn [sorted_items]. apply insert_item_in_order, IH.
Qed.

Lemma sorted_items_of_sorted l : keys_in_order l -> sorted_items l = l.
Proof.
  induction l as [|x l IH]; intros H; [reflexivity|].
  destruct H as [Hx Hl]. cbn [sorted_items]. rewrite (IH Hl).
  destruct l as [|y l]; [reflexivity|].
  cbn [insert_item]. rewrite Hx. reflexivity.
Qed.

Lemma sorted_items_idempotent l :
  sorted_items (sorted_items l) = sorted_items l.
Proof. apply sorted_items_of_sorted, sorted_items_in_order. Qed.

Lemma insert_item_Permutation x l : Permutation (x :: l) (insert_item x l).
Proof.
  induction l as [|e l IH]; cbn [insert_item]; [apply Permutation_refl|].
  destruct (str_leb (fst x) (fst e)); [apply Permutation_refl|].
  eapply perm_trans; [apply perm_swap|]. apply perm_skip, IH.
Qed.

Lemma sorted_items_is_Permutation l : Permutation l (sorted_items l).
Proof.
  induction l as [|x l IH]; [constructor|].
  cbn [sorted_items]. eapply perm_trans; [|apply insert_item_Permutation].
  apply perm_skip, IH.
Qed.
End Sorted_again.

Lemma insert_item_map_values {A B : Type} (f : A -> B) k v
  (l : list (string * A)) :
  insert_item (k, f v) (map (fun '(k, x) => (k, f x)) l)
  = map (fun '(k, x) => (k, f x)) (insert_item (k, v) l).
Proof.
  induction l as [|[ke ve] l IH]; [reflexivity|].
  cbn [map insert_item fst]. destruct (str_leb k ke); [reflexivity|].
  cbn [map]. rewrite IH. reflexivity.
Qed.

Lemma sorted_items_map_values {A B : Type} (f : A -> B)
  (l : list (string * A)) :
  sorted_items (map (fun '(k, x) => (k, f x)) l)
  = map (fun '(k, x) => (k, f x)) (sorted_items l).
Proof.
  induction l as [|[k v] l IH]; [reflexivity|].
  cbn [map sorted_items]. rewrite IH. apply insert_item_map_values.
Qed.

(** Dumping what was loaded from a dump gives the dump. *)
Lemma iterencode_json_roundtrip v :
  forall level, iterencode level (json_roundtrip v) = iterencode level v.
Proof.
  induction v as [| | | |l IH|items IH|fields IH] using value_induction;
    intros level; try reflexivity.
  - cbn [json_roundtrip iterencode]. f_equal. rewrite map_map.
    apply map_ext_in. intros x Hx. rewrite Forall_forall in IH. apply IH, Hx.
  - cbn [json_roundtrip iterencode]. f_equal.
    rewrite sorted_items_map_values, sorted_items_idempotent.
    rewrite <- sorted_items_map_values. f_equal. rewrite map_map.
    apply map_ext_in. intros [k x] Hx. rewrite Forall_forall in IH.
    f_equal. apply (IH _ Hx).
  - cbn [json_roundtrip iterencode]. f_equal. rewrite map_map.
    apply map_ext_in. intros [k x] Hx. rewrite Forall_forall in IH.
    apply (IH _ Hx).
Qed.

Lemma items_paths_In path items p :
  In p (items_paths path items)
  <-> exists k x,
        In (k, x) items
        /\ (p = path ++ "/" ++ k \/ In p (dict_paths x (path ++ "/" ++ k))).
Proof.
  induction items as [|[k0 x0] items IH]; cbn [items_paths In].
  - split; [intros [] | intros (k & x & [] & _)].
  - rewrite in_app_iff, IH. split.
    + intros [E|[H|H]].
      * exists k0, x0. split; [left; reflexivity | left; symmetry; exact E].
      * exists k0, x0. split; [left; reflexivity | right; exact H].
      * destruct H as (k & x & Hin & Hp).
        exists k, x. split; [right; exact Hin | exact Hp].
    + intros (k & x & [E|Hin] & H).
      * injection E as -> ->. destruct H as [->|H]; auto.
      * right. right. eauto.
Qed.

(** Loading a dump brings no path that the dumped tree did not have. *)
Lemma dict_paths_json_roundtrip v :
  forall path p,
    In p (dict_paths (json_roundtrip v) path) -> In p (dict_paths v path).
Proof.
  induction v as [| | | |l IH|items IH|fields IH] using value_induction;
    intros path p; try (intros []).
  cbn [json_roundtrip]. rewrite !dict_paths_dict, !items_paths_In.
  intros (k & x & Hin & H).
  apply (Permutation_in _ (Permutation_sym (sorted_items_is_Permutation _)))
    in Hin.
  apply in_map_iff in Hin. destruct Hin as ([k0 x0] & E & Hin0).
  injection E as -> <-. exists k, x0. split; [exact Hin0|].
  destruct H as [->|H]; [left; reflexivity|].
  right. rewrite Forall_forall in IH. apply (IH _ Hin0). exact H.
Qed.

(** A tree without a listed path goes through the filter unchanged. *)
Lemma FilterBuildElements_no_listed_path v :
  forall path,
    (forall p, In p (dict_paths v path) -> in_build_only p = false) ->
    _FilterBuildElements v path = v.
Proof.
  induction v as [| | | |l IHl|items IH|fields IHf] using value_induction;
    intros path H; try reflexivity.
  rewrite FilterBuildElements_dict. f_equal.
  rewrite dict_paths_dict in H.
  induction IH as [|[k x] rest Hx _ IHrest]; [reflexivity|].
  cbn [filter_items]. cbn [items_paths] in H.
  rewrite (H _ (or_introl eq_refl)). cbn [snd] in Hx.
  rewrite Hx, IHrest; [reflexivity | |].
  - intros p Hp. apply H. right. apply in_or_app. right; exact Hp.
  - intros p Hp. apply H. right. apply in_or_app. left; exact Hp.
Qed.

Lemma dict_set_same {A : Type} k (v : A) d :
  lookup k d = Some v -> dict_set k v d = d.
Proof.
  induction d as [|[k0 v0] d IH]; cbn [lookup dict_set]; [discriminate|].
  destruct (String.eqb_spec k k0) as [->|Hne].
  - intros H; injection H as ->. reflexivity.
  - intros H. rewrite (IH H). reflexivity.
Qed.

(** X17. [FilterBuildElements] is idempotent on text: for a document whose
    models are a list of mappings, filtering the text that the filter
    returned (loaded again) returns the same text. *)
Theorem FilterBuildElements_twice :
  forall json_config models filtered,
    getitem json_config MODELS = Ok (VList (map VDict models)) ->
    FilterBuildElements_tree json_config = Ok filtered ->
    FilterBuildElements json_config = Ok (json_dumps filtered)
    /\ FilterBuildElements (json_roundtrip filtered) = Ok (json_dumps filtered).
Proof.
  intros json_config models filtered Hm Hf.
  split; [unfold FilterBuildElements; rewrite Hf; reflexivity|].
  unfold FilterBuildElements_tree in Hf. rewrite Hm in Hf.
  cbn [bind iterate] in Hf.
  assert (Hfm : for_each filter_model (map VDict models)
                = Ok (map (fun m => VDict (filter_items EmptyString m)) models)).
  { clear. induction models as [|m ms IH]; [reflexivity|].
    cbn [map for_each]. unfold filter_model at 1.
    rewrite FilterBuildElements_dict. cbn [bind]. rewrite IH. reflexivity. }
  rewrite Hfm in Hf. cbn [bind] in Hf.
  apply getitem_Ok in Hm. destruct Hm as (items & -> & Hl).
  cbn [setitem] in Hf. injection Hf as <-.
  set (fms := map (fun m => VDict (filter_items EmptyString m)) models).
  assert (Hmodels :
    getitem (json_roundtrip (VDict (dict_set MODELS (VList fms) items))) MODELS
    = Ok (VList (map json_roundtrip fms))).
  { apply (getitem_json_roundtrip _ MODELS (VList fms)).
    cbn [getitem]. rewrite lookup_dict_set_eq. reflexivity. }
  unfold FilterBuildElements, FilterBuildElements_tree.
  rewrite Hmodels. cbn [bind iterate].
  assert (Hagain : for_each filter_model (map json_roundtrip fms)
                   = Ok (map json_roundtrip fms)).
  { unfold fms. clear. induction models as [|m ms IH]; [reflexivity|].
    cbn [map for_each].
    assert (E : filter_model
                  (json_roundtrip (VDict (filter_items EmptyString m)))
                = Ok (json_roundtrip (VDict (filter_items EmptyString m)))).
    { cbn [json_roundtrip filter_model]. f_equal.
      apply (FilterBuildElements_no_listed_path
               (json_roundtrip (VDict (filter_items EmptyString m)))).
      intros p Hp. apply dict_paths_json_roundtrip in Hp.
      rewrite <- FilterBuildElements_dict in Hp.
      apply (FilterBuildElements_paths _ _ _ Hp). }
    rewrite E. cbn [bind]. rewrite IH. reflexivity. }
  rewrite Hagain. cbn [bind].
  apply getitem_Ok in Hmodels. destruct Hmodels as (items' & Hrt & Hl').
  rewrite Hrt. cbn [setitem bind]. rewrite (dict_set_same _ _ _ Hl').
  rewrite <- Hrt. unfold json_dumps. rewrite iterencode_json_roundtrip.
  reflexivity.
Qed.

Lemma FilterBuildElements_twice_witness :
  exists filtered,
    FilterBuildElements_tree (json_roundtrip reef_transformed) = Ok filtered
    /\ FilterBuildElements (json_roundtrip filtered) = Ok (json_dumps filtered).
Proof.
  destruct (FilterBuildElements_tree (json_roundtrip reef_transformed))
    as [filtered|e] eqn:E; [|vm_compute in E; discriminate E].
  exists filtered. split; [reflexivity|].
  eapply (FilterBuildElements_twice (json_roundtrip reef_transformed));
    [|exact E].
  vm_compute. instantiate (1 := [_]). reflexivity.
Defined.
